(** * avalanchejs, EVM and contract-VM API clients: atomic transaction builders

    A shallow embedding of [src/apis/evm/api.ts] (class [EVMAPI]), of its
    sibling class [ContractVMAPI], of [src/apis/evm/credentials.ts] and of the
    constants of [src/apis/evm/constants.ts], followed by the properties of
    the specification that concern them.

    The two API classes are line-for-line copies of each other except for the
    class name used in messages, the RPC namespace, the default chain and the
    body of [getAVAXAssetID]; the embedding is therefore written once and is
    indexed by the class ([ApiClass]).

    JavaScript values are modelled as follows: a [BN] is an integer of [Z], a
    [Buffer] a list of bytes, a string a [string]; a value that may be
    [undefined] is an [option]; a duck-typed argument is an inductive type
    with one constructor per run-time type the code distinguishes; an
    exception is the constructor [Throw] of [Result], carrying the message of
    the [Error]; fields of [this] are threaded through the state monad [M]. *)

From Stdlib Require Import ZArith String Ascii List Bool Lia.
From stdpp Require Import base gmap strings list pretty.
Import ListNotations.

(** ** Values *)

Abbreviation BN := Z (only parsing).
Abbreviation Buffer := (list Byte.byte) (only parsing).

#[global] Instance byte_eq_dec : EqDecision Byte.byte := Byte.byte_eq_dec.

(** The outcome of a call: a value, or a thrown [Error] with its message. *)
Inductive Result (A : Type) : Type :=
| Ok (a : A)
| Throw (msg : string).
Arguments Ok {A} a.
Arguments Throw {A} msg.

(** [l.map(f)] when [f] may throw: the elements are visited in order and the
    first exception ends the call. *)
Fixpoint mapR {A B} (f : A -> Result B) (l : list A) : Result (list B) :=
  match l with
  | [] => Ok []
  | a :: rest =>
      match f a with
      | Ok b =>
          match mapR f rest with
          | Ok bs => Ok (b :: bs)
          | Throw msg => Throw msg
          end
      | Throw msg => Throw msg
      end
  end.

(** ** [EVMConstants] (constants.ts) *)
Module EVMConstants.
Definition LATESTCODEC : Z := 0.
Definition SECPFXID : Z := 0.
Definition SECPXFEROUTPUTID : Z := 7.
Definition EVMOUTPUTID : Z := 22.
Definition SECPINPUTID : Z := 5.
Definition EVMINPUTID : Z := 21.
Definition LOCKEDSTAKEABLES : list Z := [EVMINPUTID; EVMOUTPUTID].
Definition BASETX : Z := 0.
Definition IMPORTTX : Z := 0.
Definition EXPORTTX : Z := 1.
Definition SECPCREDENTIAL : Z := 9.
Definition ASSETIDLEN : Z := 32.
Definition BLOCKCHAINIDLEN : Z := 32.
Definition SYMBOLMAXLEN : Z := 4.
Definition ASSETNAMELEN : Z := 128.
Definition ADDRESSLENGTH : Z := 20.
End EVMConstants.

(** ** Credentials (credentials.ts) *)

(** An instance of a class extending [Credential]: the two protected fields
    [SECPCredential] sets, and the constructor arguments it was built from
    (the base class, which is not part of these sources, receives them). *)
Record Credential (Arg : Type) : Type := mkCredential {
  _typeName : string;
  _typeID : Z;
  ctorArgs : list Arg
}.
Arguments mkCredential {Arg} _ _ _.
Arguments _typeName {Arg} _.
Arguments _typeID {Arg} _.
Arguments ctorArgs {Arg} _.

(** [new SECPCredential(...args)] *)
Definition SECPCredential {Arg} (args : list Arg) : Credential Arg :=
  mkCredential "SECPCredential" EVMConstants.SECPCREDENTIAL args.

(** [getCredentialID()] *)
Definition getCredentialID {Arg} (c : Credential Arg) : Z := _typeID c.

(** [SelectCredentialClass(credid, ...args)]; the template literal prints the
    number in decimal. *)
Definition SelectCredentialClass {Arg} (credid : Z) (args : list Arg)
  : Result (Credential Arg) :=
  if decide (credid = EVMConstants.SECPCREDENTIAL) then
    Ok (SECPCredential args)
  else
    Throw ("Error - SelectCredentialClass: unknown credid " +:+ pretty credid).

(** The tags the dispatch has a branch for. *)
Definition registeredCredential (tag : Z) : Prop :=
  tag = EVMConstants.SECPCREDENTIAL.

(** [SECPCredential.select(id, ...args)] *)
Definition Credential_select {Arg} (self : Credential Arg) (id : Z) (args : list Arg)
  : Result (Credential Arg) :=
  SelectCredentialClass id args.

(** [SECPCredential.create(...args)] *)
Definition Credential_create {Arg} (self : Credential Arg) (args : list Arg)
  : Credential Arg :=
  SECPCredential args.

(** ** Transactions *)

(** The type tag of an atomic transaction ([IMPORTTX], [EXPORTTX]). *)
Inductive TxKind : Type := ImportTx | ExportTx.

(** Modelled from the spec: the class [UnsignedTx] of [./tx], which these
    sources only import.  An unsigned transaction is the ordered list of the
    amounts it consumes and the ordered list of the amounts it creates, each
    with its asset, a type tag and the counterpart chain. *)
Record UnsignedTx : Type := mkUnsignedTx {
  tx_kind : TxKind;
  tx_chain : Buffer;
  tx_ins : list (Buffer * BN);
  tx_outs : list (Buffer * BN)
}.

Definition totalOf (assetID : Buffer) (entries : list (Buffer * BN)) : BN :=
  fold_left (fun total e => if decide (e.1 = assetID) then (total + e.2)%Z else total)
            entries 0%Z.

(** Modelled from the spec: [utx.getInputTotal(assetID)], the total amount
    consumed in one asset. *)
Definition getInputTotal (utx : UnsignedTx) (assetID : Buffer) : BN :=
  totalOf assetID (tx_ins utx).

(** Modelled from the spec: [utx.getOutputTotal(assetID)], "the transaction's
    own total output amount" in one asset. *)
Definition getOutputTotal (utx : UnsignedTx) (assetID : Buffer) : BN :=
  totalOf assetID (tx_outs utx).

(** Modelled from the spec: [utx.getBurn(assetID)],
    "burn = inputsTotal(nativeAsset) - outputsTotal(nativeAsset)". *)
Definition getBurn (utx : UnsignedTx) (assetID : Buffer) : BN :=
  (getInputTotal utx assetID - getOutputTotal utx assetID)%Z.

(** Modelled from the spec: the constant [ONEAVAX] of [utils/constants], one
    unit of the native asset, "oneUnit = 10^9". *)
Definition ONEAVAX : BN := 1000000000%Z.

(** ** Spendable outputs and their sets *)

(** Modelled from the spec: a spendable output as it travels in the [utxos]
    array of a response and in the local store.  The codec that turns the
    string into an object is an external collaborator; the model keeps the
    identity key the codec would extract next to the rest of the record. *)
Record UTXO : Type := mkUTXO {
  utxoid : string;
  payload : string
}.

#[global] Instance UTXO_eq_dec : EqDecision UTXO.
Proof. solve_decision. Defined.

(** Modelled from the spec: the class [UTXOSet] of [./utxos], "mapping from
    identity key to SpendableOutput".  The entries are kept in insertion
    order, as the properties of a JavaScript object are; no two entries share
    a key. *)
Abbreviation UTXOSet := (list UTXO) (only parsing).

Definition UTXOSet_new : UTXOSet := [].

Definition includes (set : UTXOSet) (id : string) : bool :=
  existsb (fun u => bool_decide (utxoid u = id)) set.

(** Modelled from the spec: [add(utxo, overwrite)], "insertion is idempotent:
    re-adding an existing key is a no-op unless the caller explicitly requests
    overwrite". *)
Definition UTXOSet_add (u : UTXO) (overwrite : bool) (set : UTXOSet) : UTXOSet :=
  if includes set (utxoid u) then
    if overwrite then
      map (fun v => if decide (utxoid v = utxoid u) then u else v) set
    else set
  else set ++ [u].

(** Modelled from the spec: [addArray(data, overwrite = false)], "bulk
    ingestion from a serialized collection". *)
Definition addArray (data : list UTXO) (overwrite : bool) (set : UTXOSet) : UTXOSet :=
  fold_left (fun acc u => UTXOSet_add u overwrite acc) data set.

(** [getAllUTXOStrings()] and [getAllUTXOs()] *)
Definition getAllUTXOStrings (set : UTXOSet) : list UTXO := set.
Definition getAllUTXOs (set : UTXOSet) : list UTXO := set.

(** Modelled from the spec: the merge rules, "policy values at minimum:
    keep-existing-on-conflict, keep-incoming-on-conflict,
    union-no-conflict-expected". *)
Inductive MergeRule : Type :=
| KeepExistingOnConflict
| KeepIncomingOnConflict
| UnionNoConflictExpected.

(** Modelled from the spec: the "rule-based merge with another set", the set
    that [self.mergeByRule(other, rule)] computes from the receiver and its
    argument. *)
Definition mergeByRule (self other : UTXOSet) (rule : MergeRule) : UTXOSet :=
  match rule with
  | KeepExistingOnConflict => addArray (getAllUTXOs other) false self
  | KeepIncomingOnConflict => addArray (getAllUTXOs other) true self
  | UnionNoConflictExpected => addArray (getAllUTXOs other) false self
  end.

(** Two sets hold the same outputs when each key has the same record in both,
    whatever the order. *)
Definition lookupUTXO (set : UTXOSet) (id : string) : option UTXO :=
  find (fun u => bool_decide (utxoid u = id)) set.

Definition sameOutputs (a b : UTXOSet) : Prop :=
  forall id, lookupUTXO a id = lookupUTXO b id.

(** ** Persistence *)

(** Modelled from the spec: [PersistanceOptions] of
    [utils/persistenceoptions], the "cache descriptor": cache name, overwrite
    policy and merge rule, read through [getName], [getOverwrite] and
    [getMergeRule]. *)
Record PersistanceOptions : Type := mkPersistanceOptions {
  getName : string;
  getOverwrite : bool;
  getMergeRule : MergeRule
}.

(** What the store holds under a name: an array of serialized outputs, or
    some other value ([Array.isArray] tells them apart). *)
Inductive StoreValue : Type :=
| StoredArray (data : list UTXO)
| StoredOther (json : string).

(** Modelled from the spec: the key-value store [this.db] of the base class,
    "a named key -> serialized-collection cache", with the write policy
    "overwrite vs. fail-if-exists". *)
Definition db_has (db : gmap string StoreValue) (name : string) : bool :=
  bool_decide (is_Some (db !! name)).

Definition db_set (name : string) (data : StoreValue) (overwrite : bool)
    (db : gmap string StoreValue) : gmap string StoreValue :=
  if overwrite || negb (db_has db name) then <[name := data]> db else db.

(** ** The API object and its collaborators *)

Inductive ApiClass : Type := EVMAPI | ContractVMAPI.

Definition className (cls : ApiClass) : string :=
  match cls with
  | EVMAPI => "EVMAPI"
  | ContractVMAPI => "ContractVMAPI"
  end.

(** The namespace of the remote methods: ['avax.getUTXOs'] in [EVMAPI],
    ['platform.getUTXOs'] in [ContractVMAPI]. *)
Definition rpcNamespace (cls : ApiClass) : string :=
  match cls with
  | EVMAPI => "avax"
  | ContractVMAPI => "platform"
  end.

(** The [params] object of [getUTXOs]; the two optional members are set only
    when the argument is given. *)
Record UTXOParams : Type := mkUTXOParams {
  p_addresses : list string;
  p_limit : Z;
  p_startIndex : option (string * string);
  p_sourceChain : option string
}.

Inductive RpcParams : Type :=
| NoParams
| GetUTXOsParams (p : UTXOParams)
| GetBalanceParams (address : string).

Record RpcCall : Type := mkRpcCall {
  rpc_method : string;
  rpc_params : RpcParams
}.

(** [response.data.result] of a [getUTXOs] call. *)
Record UTXOsReply : Type := mkUTXOsReply {
  r_numFetched : Z;
  r_utxos : list UTXO;
  r_endIndex : string * string
}.

(** What [getUTXOs] resolves to: the reply with its [utxos] member replaced by
    a [UTXOSet]. *)
Record UTXOsResult : Type := mkUTXOsResult {
  numFetched : Z;
  utxos : UTXOSet;
  endIndex : string * string
}.

(** What one run of a method leaves behind, in order: the requests handed to
    the transport, a mark when [utxoset.buildImportTx] or
    [utxoset.buildExportTx] has returned the assembled transaction to a
    builder, and a mark when [checkGooseEgg] has reached its verdict.  The
    marks are observations of the run; no code reads them. *)
Inductive Event : Type :=
| Sent (call : RpcCall)
| Assembled (utx : UnsignedTx)
| Guard (utx : UnsignedTx) (verdict : bool).

Definition isSent (e : Event) : Prop :=
  match e with Sent _ => True | _ => False end.

(** The entry of [Defaults.network[netid]] for one chain. *)
Record ChainDefaults : Type := mkChainDefaults {
  cd_blockchainID : string;
  cd_alias : option string;
  cd_txFee : BN;
  cd_creationTxFee : BN
}.

(** [Defaults.network[netid]]: the members [C] and [P], which its type
    declares, and the members reached by a computed key
    ([Defaults.network[netid][this.blockchainID]]). *)
Record NetDefaults : Type := mkNetDefaults {
  nd_C : ChainDefaults;
  nd_P : ChainDefaults;
  nd_members : gmap string ChainDefaults
}.

(** The arguments [utxoset.buildImportTx] receives, in the order of the call. *)
Record ImportArgs : Type := mkImportArgs {
  im_networkid : Z;
  im_blockchainid : Buffer;
  im_toAddresses : list Buffer;
  im_fromAddresses : list Buffer;
  im_changeAddresses : list Buffer;
  im_atomics : list UTXO;
  im_sourceChain : Buffer;
  im_fee : BN;
  im_feeAssetID : option Buffer;
  im_memo : option Buffer;
  im_asOf : BN;
  im_locktime : BN;
  im_threshold : Z
}.

(** The arguments [utxoset.buildExportTx] receives, in the order of the call. *)
Record ExportArgs : Type := mkExportArgs {
  ex_networkid : Z;
  ex_blockchainid : Buffer;
  ex_amount : BN;
  ex_avaxAssetID : option Buffer;
  ex_toAddresses : list Buffer;
  ex_fromAddresses : list Buffer;
  ex_changeAddresses : list Buffer;
  ex_destinationChain : Buffer;
  ex_fee : BN;
  ex_feeAssetID : option Buffer;
  ex_memo : option Buffer;
  ex_asOf : BN;
  ex_locktime : BN;
  ex_threshold : Z
}.

(** Everything the two classes use and these sources do not contain: the core
    object ([getNetworkID], [getHRP]), the constants of [utils/constants],
    [BinTools], the remote node behind [callMethod] (it answers a request
    knowing the events so far), the two assembling methods of [UTXOSet], and
    its method [mergeByRule].  The methods of [BinTools] that decode or
    encode text can throw, and the classes catch nothing:
    [bintools.parseAddress] returns a [Buffer] or [undefined], or throws the
    exception of the decoder underneath, and [bintools.addressToString]
    returns the text or throws the exception of the encoder.  The result of
    [platform.getBalance] is taken as the text the node sends.  [getUTXOs] drops the value of
    [self.mergeByRule(utxos, rule)] and goes on with the receiver, so what the
    model needs of that method is the receiver after the call: that is
    [UTXOSet_mergeByRule self utxos rule], the merged set if the method
    updates its receiver, [self] if it only returns the merged set. *)
Record Collaborators : Type := mkCollaborators {
  getNetworkID : Z;
  getHRP : string;
  Defaults_network : gmap Z NetDefaults;
  PlatformChainID : string;
  cb58Decode : string -> Result Buffer;
  cb58Encode_nonBuffer : string -> Result string;
  bintools_parseAddress :
    string -> string -> option string -> Z -> Result (option Buffer);
  stringToAddress : string -> Result Buffer;
  addressToString : string -> option string -> Buffer -> Result string;
  node_getStakingAssetID : list Event -> Result string;
  node_getBalance : list Event -> RpcCall -> Result string;
  node_getUTXOs : list Event -> RpcCall -> Result UTXOsReply;
  UTXOSet_buildImportTx : UTXOSet -> ImportArgs -> Result UnsignedTx;
  UTXOSet_buildExportTx : UTXOSet -> ExportArgs -> Result UnsignedTx;
  UTXOSet_mergeByRule : UTXOSet -> UTXOSet -> MergeRule -> UTXOSet
}.

(** The fields of [this] the methods read and write ([keychain] plays no part
    in them), the store [this.db], and the events so far. *)
Record ApiState : Type := mkApiState {
  blockchainID : string;
  blockchainAlias : option string;
  AVAXAssetID : option Buffer;
  txFee : option BN;
  creationTxFee : option BN;
  db : gmap string StoreValue;
  trace : list Event
}.

Definition set_blockchainID (v : string) (st : ApiState) : ApiState :=
  mkApiState v (blockchainAlias st) (AVAXAssetID st) (txFee st) (creationTxFee st)
             (db st) (trace st).
Definition set_blockchainAlias (v : option string) (st : ApiState) : ApiState :=
  mkApiState (blockchainID st) v (AVAXAssetID st) (txFee st) (creationTxFee st)
             (db st) (trace st).
Definition set_AVAXAssetID (v : option Buffer) (st : ApiState) : ApiState :=
  mkApiState (blockchainID st) (blockchainAlias st) v (txFee st) (creationTxFee st)
             (db st) (trace st).
Definition set_txFee (v : option BN) (st : ApiState) : ApiState :=
  mkApiState (blockchainID st) (blockchainAlias st) (AVAXAssetID st) v (creationTxFee st)
             (db st) (trace st).
Definition set_creationTxFee (v : option BN) (st : ApiState) : ApiState :=
  mkApiState (blockchainID st) (blockchainAlias st) (AVAXAssetID st) (txFee st) v
             (db st) (trace st).
Definition set_db (v : gmap string StoreValue) (st : ApiState) : ApiState :=
  mkApiState (blockchainID st) (blockchainAlias st) (AVAXAssetID st) (txFee st)
             (creationTxFee st) v (trace st).
Definition record (e : Event) (st : ApiState) : ApiState :=
  mkApiState (blockchainID st) (blockchainAlias st) (AVAXAssetID st) (txFee st)
             (creationTxFee st) (db st) (trace st ++ [e]).

(** ** The monad of a method body: state of [this], and exceptions *)

Definition M (A : Type) : Type := ApiState -> Result A * ApiState.

Definition ret {A} (a : A) : M A := fun st => (Ok a, st).
Definition throw {A} (msg : string) : M A := fun st => (Throw msg, st).
Definition liftR {A} (r : Result A) : M A := fun st => (r, st).
Definition gets {A} (f : ApiState -> A) : M A := fun st => (Ok (f st), st).
Definition modify (f : ApiState -> ApiState) : M unit := fun st => (Ok tt, f st).
Definition bind {A B} (m : M A) (k : A -> M B) : M B :=
  fun st =>
    match m st with
    | (Ok a, st') => k a st'
    | (Throw msg, st') => (Throw msg, st')
    end.

Declare Scope api_scope.
Delimit Scope api_scope with api.
Notation "x <- m ;; k" := (bind m (fun x => k))
  (at level 100, m at next level, right associativity) : api_scope.
Notation "m ;;; k" := (bind m (fun _ => k))
  (at level 100, right associativity) : api_scope.

(** ** Duck-typed arguments *)

(** A chain identifier as the builders receive it: [undefined], a string, a
    [Buffer], or a value of another type, of which the code only reads
    [typeof]. *)
Inductive ChainArg : Type :=
| ChainUndefined
| ChainString (s : string)
| ChainBuffer (b : Buffer)
| ChainOther (type_of : string).

(** The argument of [refreshBlockchainID]. *)
Inductive ChainIDArg : Type :=
| IDUndefined
| IDString (s : string)
| IDOther (type_of : string).

(** An entry of an address array: a string or a [Buffer]. *)
Inductive AddrEntry : Type :=
| AddrString (a : string)
| AddrBuffer (b : Buffer).

(** [addresses:Array<string> | string] of [getUTXOs]. *)
Inductive AddressesArg : Type :=
| OneAddress (a : string)
| ManyAddresses (l : list string).

(** [memo:PayloadBase|Buffer = undefined]. *)
Inductive MemoArg : Type :=
| MemoUndefined
| MemoPayload (getPayload : Buffer)
| MemoBuffer (b : Buffer).

(** ** Strings and objects *)

(** [a.split("-")[0]]: the part of [a] before its first ['-'], all of [a] when
    it has none. *)
Fixpoint split_head (a : string) : string :=
  match a with
  | EmptyString => EmptyString
  | String c rest =>
      if Ascii.eqb c "-"%char then EmptyString else String c (split_head rest)
  end.

(** [needle] occurs in [s] ([s.includes(needle)]). *)
Fixpoint occursIn (needle s : string) : bool :=
  String.prefix needle s ||
  match s with
  | EmptyString => false
  | String _ rest => occursIn needle rest
  end.

(** [o[k] = v] on an object created by the literal [{}].  The object inherits
    the accessor [__proto__] of [Object.prototype]; an assignment under that
    name runs the accessor, which ignores a value that is neither an object
    nor [null], and creates no property.  Under any other name the assignment
    creates or updates an own property. *)
Definition obj_assign {V} (o : gmap string V) (k : string) (v : V) : gmap string V :=
  if decide (k = "__proto__") then o else <[k := v]> o.

(** [Object.keys(o).length] *)
Definition keys_length {V} (o : gmap string V) : nat := size o.

(** A string in a condition: [undefined] and the empty string are falsy. *)
Definition truthy (s : option string) : bool :=
  match s with
  | Some s => negb (bool_decide (s = EmptyString))
  | None => false
  end.

(** The message of the exception the accessors of a transaction end in when
    they are handed [undefined] for the asset.  The sources do not contain the
    accessors; the model makes that call an exception, so that no verdict is
    attributed to it. *)
Definition undefinedAssetMessage : string :=
  "TypeError: Cannot read property 'toString' of undefined".

Section Api.

Variable cls : ApiClass.
Variable env : Collaborators.

Local Open Scope api_scope.

(** [getBlockchainAlias()] *)
Definition getBlockchainAlias : M (option string) :=
  cached <- gets blockchainAlias;;
  match cached with
  | None =>
      let netid := getNetworkID env in
      id <- gets blockchainID;;
      match Defaults_network env !! netid with
      | Some net =>
          match nd_members net !! id with
          | Some chain =>
              modify (set_blockchainAlias (cd_alias chain));;;
              gets blockchainAlias
          | None => ret None
          end
      | None => ret None
      end
  | Some alias => ret (Some alias)
  end.

(** [setBlockchainAlias(alias)] *)
Definition setBlockchainAlias (alias : string) : M unit :=
  modify (set_blockchainAlias (Some alias)).

(** [getBlockchainID()] *)
Definition getBlockchainID : M string := gets blockchainID.

(** The chain [refreshBlockchainID] falls back to:
    [Defaults.network[netid].C.blockchainID] in [EVMAPI] ("Default to
    C-Chain"), [PlatformChainID] in [ContractVMAPI] ("default to P-Chain"). *)
Definition defaultBlockchainID (net : NetDefaults) : string :=
  match cls with
  | EVMAPI => cd_blockchainID (nd_C net)
  | ContractVMAPI => PlatformChainID env
  end.

(** [refreshBlockchainID(blockchainID = undefined)] *)
Definition refreshBlockchainID (blockchainID : ChainIDArg) : M bool :=
  let netid := getNetworkID env in
  match blockchainID, Defaults_network env !! netid with
  | IDUndefined, Some net =>
      modify (set_blockchainID (defaultBlockchainID net));;;
      ret true
  | IDString s, _ =>
      modify (set_blockchainID s);;;
      ret true
  | _, _ => ret false
  end.

(** [parseAddress(addr)] *)
Definition parseAddress (addr : string) : M (option Buffer) :=
  alias <- getBlockchainAlias;;
  blockchainID <- getBlockchainID;;
  liftR (bintools_parseAddress env addr blockchainID alias EVMConstants.ADDRESSLENGTH).

(** The request [callMethod(name, params)] hands to the transport is recorded
    before the answer is known. *)
Definition callMethod {A} (call : RpcCall) (answer : list Event -> Result A) : M A :=
  before <- gets trace;;
  modify (record (Sent call));;;
  liftR (answer before).

(** [getStakingAssetID()], a method of [ContractVMAPI] only *)
Definition getStakingAssetID : M string :=
  callMethod (mkRpcCall "platform.getStakingAssetID" NoParams)
             (node_getStakingAssetID env).

(** [getAVAXAssetID(refresh = false)].  In [EVMAPI] the whole conditional is
    commented out and the body is [return this.AVAXAssetID]. *)
Definition getAVAXAssetID (refresh : bool) : M (option Buffer) :=
  match cls with
  | EVMAPI => gets AVAXAssetID
  | ContractVMAPI =>
      cached <- gets AVAXAssetID;;
      (if bool_decide (cached = None) || refresh then
         assetID <- getStakingAssetID;;
         decoded <- liftR (cb58Decode env assetID);;
         modify (set_AVAXAssetID (Some decoded))
       else ret tt);;;
      gets AVAXAssetID
  end.

(** [setAVAXAssetID(avaxAssetID)] *)
Definition setAVAXAssetID (avaxAssetID : string + Buffer) : M unit :=
  match avaxAssetID with
  | inl s =>
      decoded <- liftR (cb58Decode env s);;
      modify (set_AVAXAssetID (Some decoded))
  | inr b => modify (set_AVAXAssetID (Some b))
  end.

(** [getDefaultTxFee()]: member ["C"] in [EVMAPI], ["P"] in [ContractVMAPI] *)
Definition getDefaultTxFee : BN :=
  match Defaults_network env !! getNetworkID env with
  | Some net =>
      cd_txFee match cls with EVMAPI => nd_C net | ContractVMAPI => nd_P net end
  | None => 0%Z
  end.

(** [getTxFee()] *)
Definition getTxFee : M BN :=
  cached <- gets txFee;;
  match cached with
  | None =>
      modify (set_txFee (Some getDefaultTxFee));;;
      ret getDefaultTxFee
  | Some fee => ret fee
  end.

(** [setTxFee(fee)] *)
Definition setTxFee (fee : BN) : M unit := modify (set_txFee (Some fee)).

(** [getDefaultCreationTxFee()] *)
Definition getDefaultCreationTxFee : BN :=
  match Defaults_network env !! getNetworkID env with
  | Some net =>
      cd_creationTxFee match cls with EVMAPI => nd_C net | ContractVMAPI => nd_P net end
  | None => 0%Z
  end.

(** [getCreationTxFee()] *)
Definition getCreationTxFee : M BN :=
  cached <- gets creationTxFee;;
  match cached with
  | None =>
      modify (set_creationTxFee (Some getDefaultCreationTxFee));;;
      ret getDefaultCreationTxFee
  | Some fee => ret fee
  end.

(** [setCreationTxFee(fee)] *)
Definition setCreationTxFee (fee : BN) : M unit :=
  modify (set_creationTxFee (Some fee)).

(** [checkGooseEgg(utx, outTotal = new BN(0))] *)
Definition checkGooseEgg (utx : UnsignedTx) (outTotal : BN) : M bool :=
  avaxAssetID <- getAVAXAssetID false;;
  match avaxAssetID with
  | None => throw undefinedAssetMessage
  | Some avaxAssetID =>
      let outputTotal :=
        if (outTotal >? 0)%Z then outTotal else getOutputTotal utx avaxAssetID in
      let fee := getBurn utx avaxAssetID in
      let verdict := (fee <=? ONEAVAX * 10)%Z || (fee <=? outputTotal)%Z in
      modify (record (Guard utx verdict));;;
      if verdict then ret true else ret false
  end.

(** [getUTXOs(addresses, sourceChain, limit = 0, startIndex, persistOpts)].
    [utxos.addArray(data)] uses the default [overwrite = false]. *)
Definition getUTXOs (addresses : AddressesArg) (sourceChain : option string)
    (limit : Z) (startIndex : option (string * string))
    (persistOpts : option PersistanceOptions) : M UTXOsResult :=
  let addresses :=
    match addresses with
    | OneAddress a => [a]
    | ManyAddresses l => l
    end in
  let params := mkUTXOParams addresses limit startIndex sourceChain in
  let call := mkRpcCall (rpcNamespace cls +:+ ".getUTXOs") (GetUTXOsParams params) in
  response <- callMethod call (fun before => node_getUTXOs env before call);;
  let utxos := UTXOSet_new in
  let data := r_utxos response in
  merged <-
    match persistOpts with
    | Some persistOpts =>
        store <- gets db;;
        let merged :=
          if db_has store (getName persistOpts) then
            match store !! getName persistOpts with
            | Some (StoredArray selfArray) =>
                let utxos := addArray data false utxos in
                let self := UTXOSet_new in
                let self := addArray selfArray false self in
                let self := UTXOSet_mergeByRule env self utxos
                                                (getMergeRule persistOpts) in
                (utxos, getAllUTXOStrings self)
            | _ => (utxos, data)
            end
          else (utxos, data) in
        modify (fun st => set_db (db_set (getName persistOpts) (StoredArray merged.2)
                                         (getOverwrite persistOpts) (db st)) st);;;
        ret merged
    | None => ret (utxos, data)
    end;;
  let utxos := addArray merged.2 false merged.1 in
  ret (mkUTXOsResult (r_numFetched response) utxos (r_endIndex response)).

(** The request [getUTXOs] hands to the transport. *)
Definition getUTXOsCall (addresses : AddressesArg) (sourceChain : option string)
    (limit : Z) (startIndex : option (string * string)) : RpcCall :=
  mkRpcCall (rpcNamespace cls +:+ ".getUTXOs")
    (GetUTXOsParams
       (mkUTXOParams match addresses with OneAddress a => [a] | ManyAddresses l => l end
                     limit startIndex sourceChain)).

(** The loop of [_cleanAddressArray]: [addrs] is the array built so far. *)
Fixpoint cleanLoop (chainid : option string) (caller : string)
    (addresses : list AddrEntry) (addrs : list string) : M (list string) :=
  match addresses with
  | [] => ret addrs
  | AddrString a :: rest =>
      parsed <- parseAddress a;;
      match parsed with
      | None =>
          throw ("Error - " +:+ className cls +:+ "." +:+ caller
                 +:+ ": Invalid address format " +:+ a)
      | Some _ => cleanLoop chainid caller rest (addrs ++ [a])
      end
  | AddrBuffer b :: rest =>
      rendered <- liftR (addressToString env (getHRP env) chainid b);;
      cleanLoop chainid caller rest (addrs ++ [rendered])
  end.

(** [_cleanAddressArray(addresses, caller)] *)
Definition _cleanAddressArray (addresses : option (list AddrEntry)) (caller : string)
  : M (list string) :=
  alias <- getBlockchainAlias;;
  chainid <- (if truthy alias then getBlockchainAlias
              else id <- getBlockchainID;; ret (Some id));;
  match addresses with
  | Some (e :: rest) => cleanLoop chainid caller (e :: rest) []
  | _ => ret []
  end.

(** [memo instanceof PayloadBase ? memo.getPayload() : memo] *)
Definition normalizeMemo (memo : MemoArg) : option Buffer :=
  match memo with
  | MemoUndefined => None
  | MemoPayload p => Some p
  | MemoBuffer b => Some b
  end.

Definition failedGooseEgg : string := "Failed Goose Egg Check".

(** [buildImportTx(utxoset, ownerAddresses, sourceChain, toAddresses,
    fromAddresses, changeAddresses, memo, asOf, locktime, threshold)] *)
Definition buildImportTx (utxoset : UTXOSet) (ownerAddresses : list string)
    (sourceChain : ChainArg) (toAddresses fromAddresses : option (list AddrEntry))
    (changeAddresses : option (list AddrEntry)) (memo : MemoArg)
    (asOf locktime : BN) (threshold : Z) : M UnsignedTx :=
  to <- _cleanAddressArray toAddresses "buildBaseTx";;
  to <- liftR (mapR (stringToAddress env) to);;
  from <- _cleanAddressArray fromAddresses "buildBaseTx";;
  from <- liftR (mapR (stringToAddress env) from);;
  change <- _cleanAddressArray changeAddresses "buildBaseTx";;
  change <- liftR (mapR (stringToAddress env) change);;
  chains <-
    match sourceChain with
    | ChainUndefined =>
        throw ("Error - " +:+ className cls
               +:+ ".buildImportTx: Source ChainID is undefined.")
    | ChainString s =>
        decoded <- liftR (cb58Decode env s);;
        ret (Some s, decoded)
    | ChainBuffer b => ret (None, b)
    | ChainOther type_of =>
        liftR (cb58Encode_nonBuffer env type_of);;;
        throw ("Error - " +:+ className cls
               +:+ ".buildImportTx: Invalid destinationChain type: " +:+ type_of)
    end;;
  let srcChain : option string := chains.1 in
  let sourceChain : Buffer := chains.2 in
  fetched <- getUTXOs (ManyAddresses ownerAddresses) srcChain 0 None None;;
  let atomicUTXOs := utxos fetched in
  avaxAssetID <- getAVAXAssetID false;;
  let memo := normalizeMemo memo in
  let atomics := getAllUTXOs atomicUTXOs in
  id <- gets blockchainID;;
  blockchainid <- liftR (cb58Decode env id);;
  fee <- getTxFee;;
  builtUnsignedTx <-
    liftR (UTXOSet_buildImportTx env utxoset
             (mkImportArgs (getNetworkID env) blockchainid to from change atomics
                           sourceChain fee avaxAssetID memo asOf locktime threshold));;
  modify (record (Assembled builtUnsignedTx));;;
  passes <- checkGooseEgg builtUnsignedTx 0;;
  if negb passes then throw failedGooseEgg else ret builtUnsignedTx.

(** The first statements of [buildExportTx]: the object [prefixes] after
    [toAddresses.map((a) => { prefixes[a.split("-")[0]] = true; })]. *)
Definition collectPrefixes (toAddresses : list string) : gmap string bool :=
  fold_left (fun prefixes a => obj_assign prefixes (split_head a) true)
            toAddresses ∅.

Definition mixedPrefixMessage : string :=
  "Error - " +:+ className cls
  +:+ ".buildExportTx: To addresses must have the same chainID prefix.".

(** [if(Object.keys(prefixes).length !== 1) throw ...] *)
Definition checkPrefixes (toAddresses : list string) : M unit :=
  let prefixes := collectPrefixes toAddresses in
  if bool_decide (keys_length prefixes ≠ 1) then throw mixedPrefixMessage
  else ret tt.

Definition missingChainIDMessage : string :=
  "Error - " +:+ className cls +:+ ".buildExportTx: Destination ChainID is undefined.".

Definition invalidChainIDTypeMessage (type_of : string) : string :=
  "Error - " +:+ className cls
  +:+ ".buildExportTx: Invalid destinationChain type: " +:+ type_of.

Definition invalidChainIDLengthMessage : string :=
  "Error - " +:+ className cls
  +:+ ".buildExportTx: Destination ChainID must be 32 bytes in length.".

(** The statements of [buildExportTx] on [destinationChain]: the chain of
    [typeof] tests, then the test of the length; the value is the [Buffer] the
    variable holds afterwards. *)
Definition checkDestinationChain (destinationChain : ChainArg) : M Buffer :=
  destinationChain <-
    match destinationChain with
    | ChainUndefined => throw missingChainIDMessage
    | ChainString s => liftR (cb58Decode env s)
    | ChainBuffer b => ret b
    | ChainOther type_of => throw (invalidChainIDTypeMessage type_of)
    end;;
  if bool_decide (length destinationChain ≠ 32) then throw invalidChainIDLengthMessage
  else ret destinationChain.

(** [buildExportTx(utxoset, amount, destinationChain, toAddresses,
    fromAddresses, changeAddresses, memo, asOf, locktime, threshold)] *)
Definition buildExportTx (utxoset : UTXOSet) (amount : BN)
    (destinationChain : ChainArg) (toAddresses : list string)
    (fromAddresses : option (list AddrEntry))
    (changeAddresses : option (list AddrEntry)) (memo : MemoArg)
    (asOf locktime : BN) (threshold : Z) : M UnsignedTx :=
  checkPrefixes toAddresses;;;
  destinationChain <- checkDestinationChain destinationChain;;
  to <- liftR (mapR (stringToAddress env) toAddresses);;
  from <- _cleanAddressArray fromAddresses "buildExportTx";;
  from <- liftR (mapR (stringToAddress env) from);;
  change <- _cleanAddressArray changeAddresses "buildExportTx";;
  change <- liftR (mapR (stringToAddress env) change);;
  let memo := normalizeMemo memo in
  avaxAssetID <- getAVAXAssetID false;;
  id <- gets blockchainID;;
  blockchainid <- liftR (cb58Decode env id);;
  fee <- getTxFee;;
  builtUnsignedTx <-
    liftR (UTXOSet_buildExportTx env utxoset
             (mkExportArgs (getNetworkID env) blockchainid amount avaxAssetID
                           to from change destinationChain fee avaxAssetID
                           memo asOf locktime threshold));;
  modify (record (Assembled builtUnsignedTx));;;
  passes <- checkGooseEgg builtUnsignedTx 0;;
  if negb passes then throw failedGooseEgg else ret builtUnsignedTx.

End Api.

(** ** The rest of the API object *)

(** [new KeyChain(hrp, chainid)] of [./keychain]: the two arguments of the
    constructor, which is all these classes use of a key chain. *)
Record KeyChain : Type := mkKeyChain {
  kc_hrp : string;
  kc_chainid : option string
}.

Section ApiRest.

Variable cls : ApiClass.
Variable env : Collaborators.

Local Open Scope api_scope.

(** [addressFromBuffer(address)] *)
Definition addressFromBuffer (address : Buffer) : M string :=
  alias <- getBlockchainAlias env;;
  chainid <- (if truthy alias then getBlockchainAlias env
              else id <- getBlockchainID;; ret (Some id));;
  liftR (addressToString env (getHRP env) chainid address).

(** The constructor, [constructor(core, baseurl, blockchainID = '')]: the
    fields of the new object, with the store the base class opens, and its
    key chain.  The alias the defaults give the chain is taken as it is,
    [undefined] included. *)
Definition construct (blockchainID : string) (store : gmap string StoreValue)
  : ApiState * KeyChain :=
  let this := mkApiState blockchainID None None None None store [] in
  let netid := getNetworkID env in
  match Defaults_network env !! netid with
  | Some net =>
      match nd_members net !! blockchainID with
      | Some chain => (this, mkKeyChain (getHRP env) (cd_alias chain))
      | None => (this, mkKeyChain (getHRP env) (Some blockchainID))
      end
  | None => (this, mkKeyChain (getHRP env) (Some blockchainID))
  end.

(** [newKeyChain()]: the value is the new key chain, which also replaces
    [this.keychain]. *)
Definition newKeyChain : M KeyChain :=
  alias <- getBlockchainAlias env;;
  if truthy alias then ret (mkKeyChain (getHRP env) alias)
  else id <- gets blockchainID;; ret (mkKeyChain (getHRP env) (Some id)).

(** The request [getBalance] hands to the transport: [params] has the one
    member [address]. *)
Definition getBalanceCall (address : string) : RpcCall :=
  mkRpcCall "platform.getBalance" (GetBalanceParams address).

(** [getBalance(address)], a method of [ContractVMAPI] only; the value is
    [response.data.result]. *)
Definition getBalance (address : string) : M string :=
  parsed <- parseAddress env address;;
  match parsed with
  | None =>
      throw ("Error - ContractVMAPI.getBalance: Invalid address format " +:+ address)
  | Some _ =>
      let call := getBalanceCall address in
      callMethod call (fun before => node_getBalance env before call)
  end.

(** The requests of the two builders: the fetch of [buildImportTx], whose
    [sourceChain] member is the argument when it came as a string, and the
    lookup of [ContractVMAPI.getAVAXAssetID]. *)
Definition importFetch (ownerAddresses : list string) (sourceChain : ChainArg)
  : RpcCall :=
  getUTXOsCall cls (ManyAddresses ownerAddresses)
               match sourceChain with ChainString s => Some s | _ => None end
               0 None.

Definition stakingLookup : RpcCall :=
  mkRpcCall "platform.getStakingAssetID" NoParams.

End ApiRest.

(** ** What a method leaves alone *)

(** [st'] differs from [st] at most in the caches of the alias, of the asset
    and of the transfer fee, and in the events; the new events all satisfy
    [P]. *)
Definition frame (P : Event -> Prop) (st st' : ApiState) : Prop :=
  blockchainID st' = blockchainID st /\
  db st' = db st /\
  creationTxFee st' = creationTxFee st /\
  exists evs,
    trace st' = trace st ++ evs /\
    forall e, In e evs -> P e.

(** The events of a run in which every request satisfies [Q]; the marks of
    the builders are free. *)
Definition sending (Q : RpcCall -> Prop) (e : Event) : Prop :=
  match e with
  | Sent call => Q call
  | _ => True
  end.

(** No event at all. *)
Definition silent (e : Event) : Prop := False.

(** [m] keeps [R] when every run of [m] ends in a state [R]-related to the
    one it started in, whether it returns or throws. *)
Definition keeps {A} (R : ApiState -> ApiState -> Prop) (m : M A) : Prop :=
  forall st, R st (m st).2.

(** The keys of a set, in order. *)
Definition keysOf (set : UTXOSet) : list string := map utxoid set.

(** ** What the validation of an address array comes to *)

Definition invalidAddressMessage (cls : ApiClass) (caller a : string) : string :=
  "Error - " +:+ className cls +:+ "." +:+ caller +:+ ": Invalid address format " +:+ a.

(** What becomes of one entry of an address array on the chain [id] with the
    alias [alias]: a string is given to the parser, and is kept as it is when
    the parser returns a [Buffer]; a [Buffer] is given to the encoder, with
    the alias, or with [id] when the alias is absent or empty. *)
Definition checkedEntry (cls : ApiClass) (env : Collaborators) (caller id : string)
    (alias : option string) (e : AddrEntry) : Result string :=
  match e with
  | AddrString a =>
      match bintools_parseAddress env a id alias EVMConstants.ADDRESSLENGTH with
      | Ok (Some _) => Ok a
      | Ok None => Throw (invalidAddressMessage cls caller a)
      | Throw msg => Throw msg
      end
  | AddrBuffer b =>
      addressToString env (getHRP env) (if truthy alias then alias else Some id) b
  end.

(** The verdict of the guard on [utx] when the native asset is [assetID] and
    no output total is given. *)
Definition gooseEggVerdict (utx : UnsignedTx) (assetID : Buffer) : bool :=
  (getBurn utx assetID <=? ONEAVAX * 10)%Z
  || (getBurn utx assetID <=? getOutputTotal utx assetID)%Z.

(** ** Runs *)

(** [st'] is reached from [st] by sending requests, and by nothing else that
    leaves an event. *)
Definition sends (st st' : ApiState) : Prop :=
  exists evs, trace st' = trace st ++ evs /\ Forall isSent evs.

(** The events a run of a builder adds, by the way the run ends.  It fails
    before there is a transaction; or the transaction is assembled and the
    guard throws; or the guard rejects it and the run throws
    [failedGooseEgg]; or the guard accepts it and the run returns it. *)
Inductive BuilderRun : Result UnsignedTx -> list Event -> Prop :=
| RunFailsEarly msg evs :
    Forall isSent evs ->
    BuilderRun (Throw msg) evs
| RunGuardThrows msg evs utx :
    Forall isSent evs ->
    BuilderRun (Throw msg) (evs ++ [Assembled utx])
| RunRejected evs utx :
    Forall isSent evs ->
    BuilderRun (Throw "Failed Goose Egg Check") (evs ++ [Assembled utx; Guard utx false])
| RunAccepted evs utx :
    Forall isSent evs ->
    BuilderRun (Ok utx) (evs ++ [Assembled utx; Guard utx true]).

(** What the specification asks of a run that started in [st] and ended in
    [out]: a returned transaction was assembled, then accepted by the guard,
    and nothing happened in between or afterwards; and a rejection by the
    guard ends the run with the exception [failedGooseEgg]. *)
Definition guarded (st : ApiState) (out : Result UnsignedTx * ApiState) : Prop :=
  exists evs,
    trace out.2 = trace st ++ evs /\
    (forall utx, out.1 = Ok utx ->
       exists pre, Forall isSent pre /\ evs = pre ++ [Assembled utx; Guard utx true]) /\
    (forall utx, In (Guard utx false) evs ->
       out.1 = Throw "Failed Goose Egg Check" /\
       exists pre, Forall isSent pre /\ evs = pre ++ [Assembled utx; Guard utx false]).

(** ** A concrete setting to run the methods in *)

Module Demo.

(** A decoder standing in for [bintools.cb58Decode]: one byte per character. *)
Definition decode (s : string) : Result Buffer :=
  Ok (map Ascii.byte_of_ascii (list_ascii_of_string s)).

(** The text after the first ['-'] of an address. *)
Fixpoint payload (addr : string) : string :=
  match addr with
  | EmptyString => EmptyString
  | String c rest => if Ascii.eqb c "-"%char then rest else payload rest
  end.

(** A parser standing in for [bintools.parseAddress].  An address whose
    prefix is neither the chain's alias nor its identifier is [undefined];
    otherwise the text after the separator is decoded, and as with the bech32
    decoder a text of fewer than 8 characters is an exception; a longer text
    is taken for an address of the expected length. *)
Definition parse (addr blockchainID : string) (alias : option string) (len : Z)
  : Result (option Buffer) :=
  if bool_decide (split_head addr = blockchainID)
     || bool_decide (Some (split_head addr) = alias)
  then
    if (String.length (payload addr) <? 8)%nat
    then Throw (payload addr +:+ " too short")
    else Ok (Some (repeat Byte.x00 (Z.to_nat len)))
  else Ok None.

(** An encoder standing in for [bintools.addressToString]: as with the bech32
    encoder, whose text may not exceed 90 characters, a [Buffer] of 50 bytes
    or more is an exception. *)
Definition render (hrp : string) (chainid : option string) (b : Buffer)
  : Result string :=
  if (49 <? length b)%nat then Throw "Exceeds length limit"
  else Ok (default "undefined" chainid +:+ "-" +:+ hrp +:+ "1address").

Definition chainC : ChainDefaults := mkChainDefaults "chain-C-id" (Some "C") 1000000 0.
Definition chainP : ChainDefaults := mkChainDefaults "chain-P-id" (Some "P") 1000000 1000000.

Definition net : NetDefaults :=
  mkNetDefaults chainC chainP
    (<["chain-C-id" := chainC]> (<["chain-P-id" := chainP]> ∅)).

Definition avax : Buffer := [Byte.x41; Byte.x56; Byte.x41; Byte.x58].

Definition chain32 : string := "0123456789abcdef0123456789abcdef".

(** The [endIndex] of a reply that has no further page. *)
Definition noIndex : string * string := (EmptyString, EmptyString).

(** A transaction consuming [ins] and creating [outs] of the asset [avax]. *)
Definition tx (ins outs : BN) : UnsignedTx :=
  mkUnsignedTx ExportTx [] [(avax, ins)] [(avax, outs)].

(** The collaborators on network [netid]: a node that serves the outputs
    [served], assembling methods that return the transaction [built], and a
    [mergeByRule] that leaves the merged set in its receiver. *)
Definition envOn (netid : Z) (served : list UTXO) (built : UnsignedTx)
  : Collaborators :=
  mkCollaborators netid "avax" (<[1%Z := net]> ∅) "chain-P-id"
    decode (fun _ => Throw "not a Buffer") parse
    (fun a => Ok []) render
    (fun _ => Ok "AVAX")
    (fun _ _ => Ok "{balance: 0}")
    (fun _ _ => Ok (mkUTXOsReply (Z.of_nat (length served)) served Demo.noIndex))
    (fun _ _ => Ok built) (fun _ _ => Ok built) mergeByRule.

(** On network 1, which has defaults. *)
Definition env (served : list UTXO) (built : UnsignedTx) : Collaborators :=
  envOn 1 served built.

(** A freshly constructed object: nothing cached, nothing stored. *)
Definition fresh (id : string) : ApiState :=
  mkApiState id None None None None ∅ [].

(** The same object after [setAVAXAssetID(avax)]. *)
Definition ready (id : string) : ApiState :=
  mkApiState id None (Some avax) None None ∅ [].

(** An object that holds the snapshot [stored] under the name ["cache"]. *)
Definition withSnapshot (stored : list UTXO) : ApiState :=
  mkApiState "chain-C-id" None (Some avax) None None
             (<["cache" := StoredArray stored]> ∅) [].

(** The same output in two serializations: as the store holds it and as the
    node serves it. *)
Definition storedOutput : UTXO := mkUTXO "tx1:0" "as stored".
Definition servedOutput : UTXO := mkUTXO "tx1:0" "as served".

End Demo.

(** * Properties *)

(** ** Reasoning about method bodies *)

Lemma bind_Ok {A B} (m : M A) (k : A -> M B) st b st' :
  bind m k st = (Ok b, st') ->
  exists a st1, m st = (Ok a, st1) /\ k a st1 = (Ok b, st').
Proof.
  unfold bind. destruct (m st) as [[a | msg] st1]; [eauto | discriminate].
Qed.

Lemma bind_Throw {A B} (m : M A) (k : A -> M B) st msg st' :
  bind m k st = (Throw msg, st') ->
  m st = (Throw msg, st') \/
  exists a st1, m st = (Ok a, st1) /\ k a st1 = (Throw msg, st').
Proof.
  unfold bind. destruct (m st) as [[a | msg1] st1]; [eauto | left; congruence].
Qed.

Lemma bind_run_Ok {A B} (m : M A) (k : A -> M B) st a st1 :
  m st = (Ok a, st1) -> bind m k st = k a st1.
Proof. unfold bind. now intros ->. Qed.

Lemma bind_run_Throw {A B} (m : M A) (k : A -> M B) st msg st1 :
  m st = (Throw msg, st1) -> bind m k st = (Throw msg, st1).
Proof. unfold bind. now intros ->. Qed.

Lemma bind_liftR_Ok {A B} (r : Result A) (k : A -> M B) st a :
  r = Ok a -> bind (liftR r) k st = k a st.
Proof. now intros ->. Qed.

Lemma bind_liftR_Throw {A B} (r : Result A) (k : A -> M B) st msg :
  r = Throw msg -> bind (liftR r) k st = (Throw msg, st).
Proof. now intros ->. Qed.

(** ** Maps that may throw *)

Lemma mapR_Ok_inv {A B} (f : A -> Result B) (l : list A) (bs : list B) :
  mapR f l = Ok bs -> Forall2 (fun a b => f a = Ok b) l bs.
Proof.
  revert bs. induction l as [| a rest IH]; intros bs; cbn [mapR].
  - intros [= <-]. constructor.
  - destruct (f a) as [b |] eqn:Hb; [| discriminate].
    destruct (mapR f rest) as [bs' |]; [| discriminate].
    intros [= <-]. constructor; [exact Hb | now apply IH].
Qed.

Lemma mapR_first_Throw {A B} (f : A -> Result B) (before : list A) a after msg :
  (forall x, In x before -> exists y, f x = Ok y) ->
  f a = Throw msg ->
  mapR f (before ++ a :: after) = Throw msg.
Proof.
  intros Hbefore Ha. induction before as [| x rest IH]; cbn [mapR app].
  - now rewrite Ha.
  - destruct (Hbefore x) as [y Hy]; [now left |]. rewrite Hy.
    rewrite IH; [reflexivity |]. intros x' Hin. apply Hbefore. now right.
Qed.

Lemma mapR_Throw_inv {A B} (f : A -> Result B) (l : list A) msg :
  mapR f l = Throw msg ->
  exists before a after,
    l = before ++ a :: after /\
    (forall x, In x before -> exists y, f x = Ok y) /\
    f a = Throw msg.
Proof.
  induction l as [| x rest IH]; cbn [mapR]; [discriminate |].
  destruct (f x) as [y |] eqn:Hx.
  - destruct (mapR f rest) as [ys |]; [discriminate |].
    intros [= <-]. destruct (IH eq_refl) as (before & a & after & -> & Hbefore & Ha).
    exists (x :: before), a, after. split; [reflexivity |]. split; [| exact Ha].
    intros x' [<- | Hin]; [eauto | now apply Hbefore].
  - intros [= <-]. exists [], x, rest. split; [reflexivity |].
    split; [intros x' [] | exact Hx].
Qed.

(** ** The alias of the chain *)

Lemma set_blockchainAlias_same st : set_blockchainAlias (blockchainAlias st) st = st.
Proof. now destruct st. Qed.

(** The run of [getBlockchainAlias]: it never throws, and what it returns is
    what the cache holds afterwards. *)
Lemma getBlockchainAlias_run env st :
  exists alias,
    getBlockchainAlias env st = (Ok alias, set_blockchainAlias alias st) /\
    (forall a, blockchainAlias st = Some a -> alias = Some a).
Proof.
  unfold getBlockchainAlias, bind, gets, modify, ret.
  destruct (blockchainAlias st) as [a |] eqn:Ha.
  - exists (Some a). split; [| now intros a' [= <-]].
    now rewrite <- Ha, set_blockchainAlias_same.
  - destruct (Defaults_network env !! getNetworkID env) as [net |].
    + destruct (nd_members net !! blockchainID st) as [chain |].
      * exists (cd_alias chain). split; [reflexivity | discriminate].
      * exists None. split; [| discriminate].
        now rewrite <- Ha, set_blockchainAlias_same.
    + exists None. split; [| discriminate].
      now rewrite <- Ha, set_blockchainAlias_same.
Qed.

Lemma getBlockchainAlias_idem env st :
  getBlockchainAlias env (getBlockchainAlias env st).2 = getBlockchainAlias env st.
Proof.
  unfold getBlockchainAlias, bind, gets, modify, ret.
  destruct (blockchainAlias st) as [a |] eqn:Ha; cbn [snd].
  - now rewrite Ha.
  - destruct (Defaults_network env !! getNetworkID env) as [net |] eqn:Hnet;
      [| cbn [snd]; now rewrite Ha].
    destruct (nd_members net !! blockchainID st) as [chain |] eqn:Hchain;
      [| cbn [snd]; rewrite Ha, ?Hchain; reflexivity].
    cbn. destruct (cd_alias chain) as [a |] eqn:Hal; [reflexivity |].
    change (blockchainID (set_blockchainAlias None st)) with (blockchainID st).
    rewrite Hchain, Hal. reflexivity.
Qed.

(** ** Credentials *)

(** C9. The only tag [SelectCredentialClass] has a branch for is
    [SECPCREDENTIAL]; for that tag it returns a credential whose
    [getCredentialID()] is the tag, and for every other tag it throws the
    "unknown credid" error. *)
Theorem SelectCredentialClass_registry {Arg} (tag : Z) (args : list Arg) :
  (registeredCredential tag ->
   exists c, SelectCredentialClass tag args = Ok c /\ getCredentialID c = tag) /\
  (~ registeredCredential tag ->
   SelectCredentialClass tag args
   = Throw ("Error - SelectCredentialClass: unknown credid " +:+ pretty tag)).
Proof.
  unfold registeredCredential, SelectCredentialClass. split; intros H.
  - subst tag. eexists. split; [reflexivity |]. reflexivity.
  - destruct (decide (tag = EVMConstants.SECPCREDENTIAL)) as [e | ne];
      [contradiction | reflexivity].
Qed.

(** The dispatch at the tags 9 and 8. *)
Lemma SelectCredentialClass_registry_witness :
  (exists c : Credential nat,
     SelectCredentialClass 9 [] = Ok c /\ getCredentialID c = 9%Z) /\
  SelectCredentialClass 8 ([] : list nat)
  = Throw "Error - SelectCredentialClass: unknown credid 8".
Proof.
  split.
  - apply (proj1 (SelectCredentialClass_registry 9 [])). reflexivity.
  - apply (proj2 (SelectCredentialClass_registry 8 ([] : list nat))).
    intros H. discriminate H.
Defined.

(** ** Chain identity *)

(** C7. [refreshBlockchainID] always returns a boolean.  Without an argument
    and with defaults for the network it adopts the default chain and returns
    [true]; with a string it adopts the string and returns [true]; in every
    other case it returns [false] and leaves the object as it was. *)
Theorem refreshBlockchainID_total cls env (arg : ChainIDArg) (st : ApiState) :
  (exists b st', refreshBlockchainID cls env arg st = (Ok b, st')) /\
  (forall net, arg = IDUndefined ->
     Defaults_network env !! getNetworkID env = Some net ->
     refreshBlockchainID cls env arg st
     = (Ok true, set_blockchainID (defaultBlockchainID cls env net) st)) /\
  (forall s, arg = IDString s ->
     refreshBlockchainID cls env arg st = (Ok true, set_blockchainID s st)) /\
  ((arg = IDUndefined -> Defaults_network env !! getNetworkID env = None) ->
   (forall s, arg <> IDString s) ->
   refreshBlockchainID cls env arg st = (Ok false, st)).
Proof.
  unfold refreshBlockchainID.
  repeat split.
  - destruct arg, (Defaults_network env !! getNetworkID env); cbn; eauto.
  - intros net -> ->. reflexivity.
  - intros s ->. destruct (Defaults_network env !! getNetworkID env); reflexivity.
  - intros Hno Hstr. destruct arg as [| s | t].
    + rewrite Hno by reflexivity. reflexivity.
    + now contradiction (Hstr s).
    + destruct (Defaults_network env !! getNetworkID env); reflexivity.
Qed.

(** [refreshBlockchainID] on a network with defaults and on one without. *)
Lemma refreshBlockchainID_total_witness :
  refreshBlockchainID EVMAPI (Demo.env [] (Demo.tx 0 0)) IDUndefined (Demo.fresh "old")
  = (Ok true, Demo.fresh "chain-C-id") /\
  refreshBlockchainID ContractVMAPI (Demo.env [] (Demo.tx 0 0)) IDUndefined
                      (Demo.fresh "old")
  = (Ok true, Demo.fresh "chain-P-id") /\
  refreshBlockchainID EVMAPI (Demo.envOn 99 [] (Demo.tx 0 0)) (IDString "new")
                      (Demo.fresh "old")
  = (Ok true, Demo.fresh "new") /\
  refreshBlockchainID EVMAPI (Demo.envOn 99 [] (Demo.tx 0 0)) IDUndefined
                      (Demo.fresh "old")
  = (Ok false, Demo.fresh "old") /\
  refreshBlockchainID EVMAPI (Demo.env [] (Demo.tx 0 0)) (IDOther "number")
                      (Demo.fresh "old")
  = (Ok false, Demo.fresh "old").
Proof.
  split; [| split; [| split; [| split]]].
  - apply (proj1 (proj2 (refreshBlockchainID_total EVMAPI (Demo.env [] (Demo.tx 0 0))
                           IDUndefined (Demo.fresh "old"))) Demo.net);
      reflexivity.
  - apply (proj1 (proj2 (refreshBlockchainID_total ContractVMAPI
                           (Demo.env [] (Demo.tx 0 0)) IDUndefined (Demo.fresh "old")))
             Demo.net);
      reflexivity.
  - apply (proj1 (proj2 (proj2 (refreshBlockchainID_total EVMAPI
                                  (Demo.envOn 99 [] (Demo.tx 0 0)) (IDString "new")
                                  (Demo.fresh "old")))) "new").
    reflexivity.
  - apply (proj2 (proj2 (proj2 (refreshBlockchainID_total EVMAPI
                                  (Demo.envOn 99 [] (Demo.tx 0 0)) IDUndefined
                                  (Demo.fresh "old"))))).
    + intros _. reflexivity.
    + intros s H. discriminate H.
  - apply (proj2 (proj2 (proj2 (refreshBlockchainID_total EVMAPI
                                  (Demo.env [] (Demo.tx 0 0)) (IDOther "number")
                                  (Demo.fresh "old"))))).
    + intros H. discriminate H.
    + intros s H. discriminate H.
Defined.

(** ** The native asset and the fee-sanity guard *)

Lemma goose_egg_bound (fee outputTotal : Z) :
  (fee <=? ONEAVAX * 10)%Z || (fee <=? outputTotal)%Z = true <->
  (fee <= Z.max (10 * ONEAVAX) outputTotal)%Z.
Proof.
  rewrite orb_true_iff, !Z.leb_le. lia.
Qed.

Lemma checkGooseEgg_run cls env utx outTotal st st1 assetID :
  getAVAXAssetID cls env false st = (Ok (Some assetID), st1) ->
  checkGooseEgg cls env utx outTotal st
  = (let outputTotal :=
       if (outTotal >? 0)%Z then outTotal else getOutputTotal utx assetID in
     let verdict :=
       (getBurn utx assetID <=? ONEAVAX * 10)%Z
       || (getBurn utx assetID <=? outputTotal)%Z in
     (Ok verdict, record (Guard utx verdict) st1)).
Proof.
  intros Hasset. unfold checkGooseEgg.
  rewrite (bind_run_Ok _ _ _ _ _ Hasset). cbn zeta.
  unfold bind, modify, ret.
  now destruct (_ || _).
Qed.

(** C1. Once the native asset is known, [checkGooseEgg] returns a verdict,
    and the verdict is [true] exactly when the burn in the native asset is at
    most the larger of ten units and the output total, the output total being
    the argument when it is positive and the transaction's own otherwise.
    With one unit worth 10^9: a burn of 5*10^9 passes with an output total
    of 0, a burn of 2*10^10 fails with an output total of 10^9, a burn of 0
    passes whatever the output total. *)
Theorem checkGooseEgg_accepts_iff cls env utx (outTotal : BN) st st1 assetID :
  getAVAXAssetID cls env false st = (Ok (Some assetID), st1) ->
  let outputTotal :=
    if (outTotal >? 0)%Z then outTotal else getOutputTotal utx assetID in
  let burn := getBurn utx assetID in
  exists verdict,
    checkGooseEgg cls env utx outTotal st
    = (Ok verdict, record (Guard utx verdict) st1) /\
    (verdict = true <-> (burn <= Z.max (10 * ONEAVAX) outputTotal)%Z) /\
    (ONEAVAX = 10 ^ 9)%Z /\
    (burn = 5 * 10 ^ 9 -> outTotal = 0 -> verdict = true)%Z /\
    (burn = 2 * 10 ^ 10 -> outTotal = 10 ^ 9 -> verdict = false)%Z /\
    (burn = 0%Z -> verdict = true).
Proof.
  intros Hasset outputTotal burn.
  rewrite (checkGooseEgg_run _ _ utx outTotal _ _ _ Hasset). cbn zeta.
  fold burn. fold outputTotal.
  eexists. split; [reflexivity |].
  assert (Hiff := goose_egg_bound burn outputTotal).
  split; [exact Hiff |]. split; [reflexivity |].
  change (10 ^ 9)%Z with 1000000000%Z.
  change (10 ^ 10)%Z with 10000000000%Z.
  repeat split.
  - intros Hb _. apply Hiff. rewrite Hb. unfold ONEAVAX. lia.
  - intros Hb Ho. apply not_true_iff_false. rewrite Hiff.
    subst outputTotal. rewrite Ho, Hb. cbn [Z.gtb Z.compare Pos.compare Pos.compare_cont].
    unfold ONEAVAX. lia.
  - intros Hb. apply Hiff. rewrite Hb. unfold ONEAVAX. lia.
Qed.

(** The guard at the three transactions of the specification. *)
Lemma checkGooseEgg_accepts_iff_witness :
  exists verdict,
    checkGooseEgg EVMAPI (Demo.env [] (Demo.tx 0 0))
                  (Demo.tx (2 * 10 ^ 10 + 7) 7) (10 ^ 9) (Demo.ready "chain")
    = (Ok verdict,
       record (Guard (Demo.tx (2 * 10 ^ 10 + 7) 7) verdict) (Demo.ready "chain")) /\
    (verdict = true <->
     (getBurn (Demo.tx (2 * 10 ^ 10 + 7) 7) Demo.avax
      <= Z.max (10 * ONEAVAX) (10 ^ 9))%Z) /\
    (ONEAVAX = 10 ^ 9)%Z /\
    (getBurn (Demo.tx (2 * 10 ^ 10 + 7) 7) Demo.avax = 5 * 10 ^ 9 ->
     10 ^ 9 = 0 -> verdict = true)%Z /\
    (getBurn (Demo.tx (2 * 10 ^ 10 + 7) 7) Demo.avax = 2 * 10 ^ 10 ->
     10 ^ 9 = 10 ^ 9 -> verdict = false)%Z /\
    (getBurn (Demo.tx (2 * 10 ^ 10 + 7) 7) Demo.avax = 0%Z -> verdict = true).
Proof.
  apply (checkGooseEgg_accepts_iff EVMAPI (Demo.env [] (Demo.tx 0 0))
           (Demo.tx (2 * 10 ^ 10 + 7) 7) (10 ^ 9) (Demo.ready "chain")
           (Demo.ready "chain") Demo.avax).
  reflexivity.
Defined.

(** C2, in [EVMAPI]. Whatever the flag and whatever the cache holds,
    [getAVAXAssetID] returns the field as it is, [undefined] included, hands
    no request to the transport and leaves the object unchanged: the
    conditional that would look the asset up is commented out. *)
Theorem EVMAPI_getAVAXAssetID_no_lookup env (refresh : bool) (st : ApiState) :
  getAVAXAssetID EVMAPI env refresh st = (Ok (AVAXAssetID st), st) /\
  getAVAXAssetID EVMAPI env true (Demo.fresh "chain")
  = (Ok None, Demo.fresh "chain").
Proof. split; reflexivity. Qed.

(** In [ContractVMAPI], [getAVAXAssetID] returns the cached asset when there
    is one and [refresh] is off, without a request. *)
Lemma ContractVMAPI_getAVAXAssetID_cached env st assetID :
  AVAXAssetID st = Some assetID ->
  getAVAXAssetID ContractVMAPI env false st = (Ok (Some assetID), st).
Proof.
  intros Hc. unfold getAVAXAssetID, bind, gets. cbn.
  rewrite Hc. cbn. now rewrite Hc.
Qed.

(** In [ContractVMAPI], when the cache is empty or [refresh] is on,
    [getAVAXAssetID] sends one [platform.getStakingAssetID] request, decodes
    the answer, caches it and returns it. *)
Lemma ContractVMAPI_getAVAXAssetID_lookup env refresh st text decoded :
  AVAXAssetID st = None \/ refresh = true ->
  node_getStakingAssetID env (trace st) = Ok text ->
  cb58Decode env text = Ok decoded ->
  getAVAXAssetID ContractVMAPI env refresh st
  = (Ok (Some decoded),
     set_AVAXAssetID (Some decoded)
       (record (Sent (mkRpcCall "platform.getStakingAssetID" NoParams)) st)).
Proof.
  intros Hwhen Hnode Hdec.
  unfold getAVAXAssetID, getStakingAssetID, callMethod, bind, gets, modify, liftR.
  cbn.
  assert (Hcond : bool_decide (AVAXAssetID st = None) || refresh = true).
  { destruct Hwhen as [-> | ->]; [reflexivity | apply orb_true_r]. }
  rewrite Hcond, Hnode. cbn. now rewrite Hdec.
Qed.

(** ** The destination of an export *)

Section ExportTests.

Variable cls : ApiClass.
Variable env : Collaborators.

(** The own properties of [prefixes] are the prefixes of the addresses, the
    name [__proto__] excepted. *)
Lemma collectPrefixes_dom (toAddresses : list string) :
  dom (collectPrefixes toAddresses)
  = list_to_set (filter (fun p => p <> "__proto__") (map split_head toAddresses)).
Proof.
  unfold collectPrefixes.
  enough (Hgen : forall (o : gmap string bool),
             dom (fold_left (fun prefixes a => obj_assign prefixes (split_head a) true)
                            toAddresses o)
             = dom o ∪ list_to_set (filter (fun p => p <> "__proto__")
                                           (map split_head toAddresses))).
  { rewrite Hgen, dom_empty_L. apply (left_id_L ∅ (∪)). }
  induction toAddresses as [| a rest IH]; intros o; cbn [fold_left map].
  - rewrite filter_nil. cbn [list_to_set]. symmetry. apply (right_id_L ∅ (∪)).
  - rewrite IH. unfold obj_assign. rewrite filter_cons.
    destruct (decide (split_head a = "__proto__")) as [e | ne].
    + destruct (decide (split_head a <> "__proto__")); [contradiction | reflexivity].
    + destruct (decide (split_head a <> "__proto__")); [| contradiction].
      rewrite dom_insert_L. cbn [list_to_set].
      rewrite (comm_L (∪) {[split_head a]} (dom o)).
      symmetry. apply (assoc_L (∪)).
Qed.

Lemma checkPrefixes_run (toAddresses : list string) (st : ApiState) :
  checkPrefixes cls toAddresses st
  = if decide (keys_length (collectPrefixes toAddresses) = 1) then (Ok tt, st)
    else (Throw (mixedPrefixMessage cls), st).
Proof.
  unfold checkPrefixes. cbn zeta.
  destruct (decide (keys_length (collectPrefixes toAddresses) = 1)) as [e | ne].
  - rewrite bool_decide_eq_false_2 by (intros H; contradiction). reflexivity.
  - rewrite bool_decide_eq_true_2 by assumption. reflexivity.
Qed.

(** A non-empty list whose addresses share one prefix, other than the name
    [__proto__], passes the test of the prefixes. *)
Lemma checkPrefixes_one_prefix (toAddresses : list string) (p : string) st :
  toAddresses <> [] ->
  p <> "__proto__" ->
  (forall a, In a toAddresses -> split_head a = p) ->
  checkPrefixes cls toAddresses st = (Ok tt, st).
Proof.
  intros Hne Hp Hall. rewrite checkPrefixes_run.
  destruct (decide _) as [e | ne]; [reflexivity | exfalso; apply ne].
  unfold keys_length. rewrite <- size_dom, collectPrefixes_dom.
  assert (Hset : list_to_set (filter (fun q => q <> "__proto__")
                                     (map split_head toAddresses))
                 = ({[ p ]} : gset string)).
  { apply set_eq. intros q.
    rewrite elem_of_list_to_set, list_elem_of_filter, list_elem_of_In, in_map_iff,
      elem_of_singleton.
    split.
    - intros [_ (a & <- & Ha)]. now apply Hall.
    - intros ->. split; [assumption |].
      destruct toAddresses as [| a rest]; [contradiction |].
      exists a. split; [apply Hall |]; now left. }
  rewrite Hset. apply size_singleton.
Qed.

(** A list with two addresses of distinct prefixes, neither of them the name
    [__proto__], fails the test of the prefixes. *)
Lemma checkPrefixes_two_prefixes (toAddresses : list string) (a b : string) st :
  In a toAddresses -> In b toAddresses ->
  split_head a <> split_head b ->
  split_head a <> "__proto__" -> split_head b <> "__proto__" ->
  checkPrefixes cls toAddresses st = (Throw (mixedPrefixMessage cls), st).
Proof.
  intros Ha Hb Hab Hpa Hpb. rewrite checkPrefixes_run.
  destruct (decide _) as [e | ne]; [exfalso | reflexivity].
  unfold keys_length in e. rewrite <- size_dom, collectPrefixes_dom in e.
  apply Hab.
  apply (size_singleton_inv _ _ _ e);
    rewrite elem_of_list_to_set, list_elem_of_filter, list_elem_of_In, in_map_iff;
    eauto.
Qed.

(** The builder stops at the first test that throws. *)
Lemma buildExportTx_stops_at_prefixes utxoset amount destinationChain toAddresses
    fromAddresses changeAddresses memo asOf locktime threshold st msg st' :
  checkPrefixes cls toAddresses st = (Throw msg, st') ->
  buildExportTx cls env utxoset amount destinationChain toAddresses fromAddresses
                changeAddresses memo asOf locktime threshold st
  = (Throw msg, st').
Proof.
  intros H. unfold buildExportTx. now rewrite (bind_run_Throw _ _ _ _ _ H).
Qed.

Lemma buildExportTx_stops_at_chain utxoset amount destinationChain toAddresses
    fromAddresses changeAddresses memo asOf locktime threshold st msg st' :
  checkPrefixes cls toAddresses st = (Ok tt, st) ->
  checkDestinationChain cls env destinationChain st = (Throw msg, st') ->
  buildExportTx cls env utxoset amount destinationChain toAddresses fromAddresses
                changeAddresses memo asOf locktime threshold st
  = (Throw msg, st').
Proof.
  intros Hp Hc. unfold buildExportTx.
  rewrite (bind_run_Ok _ _ _ _ _ Hp). now rewrite (bind_run_Throw _ _ _ _ _ Hc).
Qed.

End ExportTests.

(** C4. The statements of [buildExportTx] on [destinationChain]: [undefined]
    throws "Destination ChainID is undefined"; a value that is neither a
    string nor a [Buffer] throws "Invalid destinationChain type"; a string is
    decoded and then treated as the [Buffer] it decodes to; a [Buffer] whose
    length is not 32 throws "must be 32 bytes in length"; a [Buffer] of 32
    bytes passes and is the destination from there on.  When the prefixes
    have passed, what these statements throw is what the builder throws. *)
Theorem buildExportTx_destinationChain cls env (st : ApiState) :
  checkDestinationChain cls env ChainUndefined st
  = (Throw (missingChainIDMessage cls), st) /\
  (forall type_of,
     checkDestinationChain cls env (ChainOther type_of) st
     = (Throw (invalidChainIDTypeMessage cls type_of), st)) /\
  (forall s b,
     cb58Decode env s = Ok b ->
     checkDestinationChain cls env (ChainString s) st
     = checkDestinationChain cls env (ChainBuffer b) st) /\
  (forall b : Buffer,
     length b <> 32 ->
     checkDestinationChain cls env (ChainBuffer b) st
     = (Throw (invalidChainIDLengthMessage cls), st)) /\
  (forall b : Buffer,
     length b = 32 ->
     checkDestinationChain cls env (ChainBuffer b) st = (Ok b, st)) /\
  (forall utxoset amount destinationChain toAddresses fromAddresses changeAddresses
          memo asOf locktime threshold msg st',
     checkPrefixes cls toAddresses st = (Ok tt, st) ->
     checkDestinationChain cls env destinationChain st = (Throw msg, st') ->
     buildExportTx cls env utxoset amount destinationChain toAddresses fromAddresses
                   changeAddresses memo asOf locktime threshold st
     = (Throw msg, st')).
Proof.
  repeat split.
  - intros s b Hdec. unfold checkDestinationChain, bind, liftR, ret.
    now rewrite Hdec.
  - intros b Hlen. unfold checkDestinationChain, bind, ret, throw.
    now rewrite bool_decide_eq_true_2.
  - intros b Hlen. unfold checkDestinationChain, bind, ret, throw.
    rewrite bool_decide_eq_false_2; [reflexivity | intros H; contradiction].
  - intros. now apply buildExportTx_stops_at_chain.
Qed.

(** The statements on [destinationChain] at an absent value, a number, a
    string of 32 characters and a string of 5, and the builder at an absent
    value. *)
Lemma buildExportTx_destinationChain_witness :
  let env := Demo.env [] (Demo.tx 0 0) in
  let st := Demo.ready "chain-C-id" in
  checkDestinationChain EVMAPI env ChainUndefined st
  = (Throw "Error - EVMAPI.buildExportTx: Destination ChainID is undefined.", st) /\
  checkDestinationChain EVMAPI env (ChainOther "number") st
  = (Throw "Error - EVMAPI.buildExportTx: Invalid destinationChain type: number", st) /\
  (exists b : Buffer,
     length b = 32 /\
     checkDestinationChain EVMAPI env (ChainString Demo.chain32) st = (Ok b, st)) /\
  checkDestinationChain EVMAPI env (ChainString "short") st
  = (Throw "Error - EVMAPI.buildExportTx: Destination ChainID must be 32 bytes in length.",
     st) /\
  buildExportTx EVMAPI env [] 5 ChainUndefined ["X-a"] None None MemoUndefined 0 0 1 st
  = (Throw "Error - EVMAPI.buildExportTx: Destination ChainID is undefined.", st).
Proof.
  cbv zeta.
  pose proof (buildExportTx_destinationChain EVMAPI (Demo.env [] (Demo.tx 0 0))
                (Demo.ready "chain-C-id"))
    as (Hmissing & Htype & Hdecode & Hlength & Hpass & Hbuilder).
  split; [exact Hmissing |]. split; [exact (Htype "number") |]. split; [| split].
  - eexists. split; [| rewrite (Hdecode Demo.chain32 _ eq_refl); apply Hpass];
      reflexivity.
  - rewrite (Hdecode "short" _ eq_refl). apply Hlength. cbn. lia.
  - apply Hbuilder; [reflexivity | exact Hmissing].
Defined.

(** C5, at the prefix [__proto__]. An assignment to [prefixes["__proto__"]]
    creates no property, so the test of the prefixes does not count that
    prefix: a list whose only prefix it is is refused with the error of
    mixed prefixes, and a list that has it next to one other prefix passes
    the test. *)
Theorem checkPrefixes_proto_prefix cls env utxoset amount destinationChain
    fromAddresses changeAddresses memo asOf locktime threshold (st : ApiState) :
  split_head "__proto__-a" = "__proto__" /\
  split_head "X-b" = "X" /\
  buildExportTx cls env utxoset amount destinationChain ["__proto__-a"]
                fromAddresses changeAddresses memo asOf locktime threshold st
  = (Throw (mixedPrefixMessage cls), st) /\
  checkPrefixes cls ["__proto__-a"; "X-b"] st = (Ok tt, st).
Proof.
  split; [reflexivity |]. split; [reflexivity |]. split.
  - apply buildExportTx_stops_at_prefixes. now rewrite checkPrefixes_run.
  - now rewrite checkPrefixes_run.
Qed.

(** C10. With an empty [toAddresses] the object [prefixes] has no key, and
    [buildExportTx] throws the error of mixed prefixes, the one it throws for
    two prefixes: the test passes exactly when the number of keys is one. *)
Theorem buildExportTx_empty_toAddresses cls env utxoset amount destinationChain
    fromAddresses changeAddresses memo asOf locktime threshold (st : ApiState) :
  keys_length (collectPrefixes []) = 0 /\
  buildExportTx cls env utxoset amount destinationChain []
                fromAddresses changeAddresses memo asOf locktime threshold st
  = (Throw (mixedPrefixMessage cls), st) /\
  buildExportTx cls env utxoset amount destinationChain ["X-a"; "P-b"]
                fromAddresses changeAddresses memo asOf locktime threshold st
  = (Throw (mixedPrefixMessage cls), st) /\
  (forall toAddresses,
     (checkPrefixes cls toAddresses st = (Ok tt, st)
      <-> keys_length (collectPrefixes toAddresses) = 1) /\
     (keys_length (collectPrefixes toAddresses) <> 1 ->
      checkPrefixes cls toAddresses st = (Throw (mixedPrefixMessage cls), st))).
Proof.
  split; [reflexivity |]. split; [| split].
  - apply buildExportTx_stops_at_prefixes. now rewrite checkPrefixes_run.
  - apply buildExportTx_stops_at_prefixes. now rewrite checkPrefixes_run.
  - intros toAddresses. rewrite checkPrefixes_run.
    destruct (decide (keys_length (collectPrefixes toAddresses) = 1)) as [e | ne].
    + split; [tauto | intros H; contradiction].
    + split; [split; [discriminate | intros H; contradiction] | reflexivity].
Qed.

(** The builder of [EVMAPI] at an empty list. *)
Lemma buildExportTx_empty_toAddresses_witness :
  buildExportTx EVMAPI (Demo.env [] (Demo.tx 10 5)) [] 5 (ChainString Demo.chain32) []
                None None MemoUndefined 0 0 1 (Demo.ready "chain-C-id")
  = (Throw "Error - EVMAPI.buildExportTx: To addresses must have the same chainID prefix.",
     Demo.ready "chain-C-id").
Proof.
  exact (proj1 (proj2 (buildExportTx_empty_toAddresses EVMAPI
                         (Demo.env [] (Demo.tx 10 5)) [] 5 (ChainString Demo.chain32)
                         None None MemoUndefined 0 0 1 (Demo.ready "chain-C-id")))).
Defined.

(** ** The order of assembly, guard and return *)

Section Builders.

Variable cls : ApiClass.
Variable env : Collaborators.

Lemma sends_refl st : sends st st.
Proof. exists []. split; [now rewrite app_nil_r | constructor]. Qed.

Lemma sends_trans st1 st2 st3 : sends st1 st2 -> sends st2 st3 -> sends st1 st3.
Proof.
  intros (e1 & H1 & F1) (e2 & H2 & F2). exists (e1 ++ e2). split.
  - now rewrite H2, H1, app_assoc.
  - now apply Forall_app.
Qed.

Lemma sends_quiet st st' : trace st' = trace st -> sends st st'.
Proof. intros H. exists []. split; [now rewrite app_nil_r | constructor]. Qed.

Lemma sends_record st call : sends st (record (Sent call) st).
Proof. exists [Sent call]. split; [reflexivity | now repeat constructor]. Qed.

Lemma bind_inv {A B} (m : M A) (k : A -> M B) st out :
  bind m k st = out ->
  match m st with
  | (Ok a, st1) => k a st1 = out
  | (Throw msg, st1) => out = (Throw msg, st1)
  end.
Proof. unfold bind. destruct (m st) as [[a | msg] st1]; congruence. Qed.

Lemma getBlockchainAlias_quiet st :
  trace (getBlockchainAlias env st).2 = trace st /\
  AVAXAssetID (getBlockchainAlias env st).2 = AVAXAssetID st.
Proof.
  unfold getBlockchainAlias, bind, gets, modify, ret. cbn.
  destruct (blockchainAlias st); [now split |].
  destruct (Defaults_network env !! getNetworkID env) as [net |]; [| now split].
  destruct (nd_members net !! blockchainID st); now split.
Qed.

Lemma parseAddress_quiet a st :
  trace (parseAddress env a st).2 = trace st.
Proof.
  unfold parseAddress, bind, getBlockchainID, gets, ret.
  destruct (getBlockchainAlias env st) as [[alias | msg] st1] eqn:E; cbn;
    now rewrite <- (proj1 (getBlockchainAlias_quiet st)), E.
Qed.

Lemma cleanLoop_quiet chainid caller addresses addrs st :
  trace (cleanLoop cls env chainid caller addresses addrs st).2 = trace st.
Proof.
  revert addrs st.
  induction addresses as [| [a | b] rest IH]; intros addrs st; cbn [cleanLoop].
  - reflexivity.
  - unfold bind.
    destruct (parseAddress env a st) as [[[parsed |] | msg] st1] eqn:E; cbn.
    + rewrite IH. now rewrite <- (parseAddress_quiet a st), E.
    + now rewrite <- (parseAddress_quiet a st), E.
    + now rewrite <- (parseAddress_quiet a st), E.
  - unfold bind, liftR.
    destruct (addressToString env (getHRP env) chainid b); [apply IH | reflexivity].
Qed.

Lemma cleanAddressArray_quiet addresses caller st :
  trace (_cleanAddressArray cls env addresses caller st).2 = trace st.
Proof.
  unfold _cleanAddressArray, bind.
  destruct (getBlockchainAlias env st) as [[alias | msg] st1] eqn:E1.
  2:{ cbn. now rewrite <- (proj1 (getBlockchainAlias_quiet st)), E1. }
  assert (H1 : trace st1 = trace st)
    by now rewrite <- (proj1 (getBlockchainAlias_quiet st)), E1.
  destruct (truthy alias).
  - destruct (getBlockchainAlias env st1) as [[chainid | msg] st2] eqn:E2.
    2:{ cbn. now rewrite <- H1, <- (proj1 (getBlockchainAlias_quiet st1)), E2. }
    assert (H2 : trace st2 = trace st1)
      by now rewrite <- (proj1 (getBlockchainAlias_quiet st1)), E2.
    destruct addresses as [[| e rest] |]; unfold ret; cbn [snd];
      rewrite ?cleanLoop_quiet; now rewrite H2.
  - unfold getBlockchainID, gets, ret. cbn -[cleanLoop].
    destruct addresses as [[| e rest] |]; unfold ret; cbn [snd];
      rewrite ?cleanLoop_quiet; assumption.
Qed.

Lemma cleanAddressArray_sends addresses caller st r st' :
  _cleanAddressArray cls env addresses caller st = (r, st') -> sends st st'.
Proof.
  intros H. apply sends_quiet.
  now rewrite <- (cleanAddressArray_quiet addresses caller st), H.
Qed.

Lemma callMethod_trace {A} call (answer : list Event -> Result A) st :
  trace (callMethod call answer st).2 = trace st ++ [Sent call].
Proof.
  unfold callMethod, bind, gets, modify, liftR. cbn. reflexivity.
Qed.

Lemma getUTXOs_trace addresses sourceChain limit startIndex persistOpts st :
  exists call,
    trace (getUTXOs cls env addresses sourceChain limit startIndex persistOpts st).2
    = trace st ++ [Sent call].
Proof.
  unfold getUTXOs. cbn zeta. eexists.
  match goal with
  | |- context [bind (callMethod ?c ?a) ?k st] =>
      pose proof (callMethod_trace c a st) as Hcall;
      unfold bind at 1; destruct (callMethod c a st) as [[response | msg] st1]
  end; cbn [snd] in Hcall.
  - destruct persistOpts as [opts |];
      unfold bind, gets, modify, ret; cbn; exact Hcall.
  - exact Hcall.
Qed.

Lemma getUTXOs_sends addresses sourceChain limit startIndex persistOpts st r st' :
  getUTXOs cls env addresses sourceChain limit startIndex persistOpts st = (r, st') ->
  sends st st'.
Proof.
  intros H.
  destruct (getUTXOs_trace addresses sourceChain limit startIndex persistOpts st)
    as [call Hcall].
  rewrite H in Hcall. exists [Sent call]. split; [exact Hcall | now repeat constructor].
Qed.

(** After [getAVAXAssetID], the cache holds what was returned; in
    [ContractVMAPI] that is never [undefined]. *)
Lemma getAVAXAssetID_sends refresh st r st' :
  getAVAXAssetID cls env refresh st = (r, st') ->
  sends st st' /\
  (forall v, r = Ok v ->
     AVAXAssetID st' = v /\ (cls = ContractVMAPI -> v <> None)).
Proof.
  unfold getAVAXAssetID. destruct cls.
  - unfold gets. intros [= <- <-]. split; [apply sends_refl |].
    intros v [= <-]. split; [reflexivity | discriminate].
  - unfold bind at 1. unfold gets at 1.
    destruct (bool_decide (AVAXAssetID st = None) || refresh) eqn:Hcond.
    + unfold getStakingAssetID, callMethod, bind, gets, modify, liftR. cbn.
      destruct (node_getStakingAssetID env (trace st)) as [text | msg]; cbn.
      * destruct (cb58Decode env text) as [decoded | msg]; cbn.
        -- intros [= <- <-]. split; [apply sends_record |].
           intros v [= <-]. split; [reflexivity | discriminate].
        -- intros [= <- <-]. split; [apply sends_record | discriminate].
      * intros [= <- <-]. split; [apply sends_record | discriminate].
    + unfold bind, ret, gets. intros [= <- <-]. split; [apply sends_refl |].
      intros v [= <-]. split; [reflexivity |]. intros _ Hnone.
      apply orb_false_iff in Hcond. destruct Hcond as [Hc _].
      apply bool_decide_eq_false in Hc. contradiction.
Qed.

Lemma getTxFee_quiet st :
  exists fee st', getTxFee cls env st = (Ok fee, st') /\
    trace st' = trace st /\ AVAXAssetID st' = AVAXAssetID st.
Proof.
  unfold getTxFee, bind, gets, modify, ret. cbn.
  destruct (txFee st); eauto.
Qed.

(** With the asset in the cache the guard hands over its verdict, or throws
    for want of an asset (in [EVMAPI] only), and sends nothing. *)
Lemma checkGooseEgg_outcome utx outTotal st :
  (cls = ContractVMAPI -> AVAXAssetID st <> None) ->
  checkGooseEgg cls env utx outTotal st = (Throw undefinedAssetMessage, st) \/
  exists verdict,
    checkGooseEgg cls env utx outTotal st
    = (Ok verdict, record (Guard utx verdict) st).
Proof.
  intros Hcache.
  destruct (AVAXAssetID st) as [assetID |] eqn:Hc.
  - right. eexists. apply checkGooseEgg_run with (assetID := assetID).
    unfold getAVAXAssetID. destruct cls.
    + unfold gets. now rewrite Hc.
    + now apply ContractVMAPI_getAVAXAssetID_cached.
  - left. destruct cls; [| now contradiction Hcache].
    unfold checkGooseEgg, getAVAXAssetID, bind, gets, throw. now rewrite Hc.
Qed.

(** The last statements of both builders, from the decoding of
    [this.blockchainID] on; [assemble] stands for the call of
    [utxoset.buildImportTx] or [utxoset.buildExportTx]. *)
Lemma builder_tail (assemble : Buffer -> BN -> Result UnsignedTx) st0 st r st' :
  sends st0 st ->
  (cls = ContractVMAPI -> AVAXAssetID st <> None) ->
  (id <- gets blockchainID;;
   blockchainid <- liftR (cb58Decode env id);;
   fee <- getTxFee cls env;;
   builtUnsignedTx <- liftR (assemble blockchainid fee);;
   modify (record (Assembled builtUnsignedTx));;;
   passes <- checkGooseEgg cls env builtUnsignedTx 0;;
   if negb passes then throw failedGooseEgg else ret builtUnsignedTx)%api st
  = (r, st') ->
  exists evs, trace st' = trace st0 ++ evs /\ BuilderRun r evs.
Proof.
  intros (evs & Htr & Hsent) Hcache Hrun.
  apply bind_inv in Hrun. unfold gets at 1 in Hrun.
  apply bind_inv in Hrun. unfold liftR at 1 in Hrun.
  destruct (cb58Decode env (blockchainID st)) as [blockchainid | msg].
  2:{ injection Hrun as -> ->. exists evs. split; [exact Htr | now constructor]. }
  apply bind_inv in Hrun.
  destruct (getTxFee_quiet st) as (fee & st1 & Hfee & Htr1 & Hc1).
  rewrite Hfee in Hrun.
  apply bind_inv in Hrun. unfold liftR at 1 in Hrun.
  destruct (assemble blockchainid fee) as [utx | msg].
  2:{ injection Hrun as -> ->. exists evs. split; [congruence | now constructor]. }
  apply bind_inv in Hrun. unfold modify at 1 in Hrun.
  apply bind_inv in Hrun.
  destruct (checkGooseEgg_outcome utx 0 (record (Assembled utx) st1))
    as [Hthrow | [verdict Hok]].
  { cbn. rewrite Hc1. exact Hcache. }
  - rewrite Hthrow in Hrun. injection Hrun as -> ->.
    exists (evs ++ [Assembled utx]). split.
    + cbn. now rewrite Htr1, Htr, app_assoc.
    + now constructor.
  - rewrite Hok in Hrun.
    assert (Htrace : trace (record (Guard utx verdict) (record (Assembled utx) st1))
                     = trace st0 ++ evs ++ [Assembled utx; Guard utx verdict]).
    { cbn. rewrite Htr1, Htr, <- !app_assoc. reflexivity. }
    destruct verdict; unfold throw, ret in Hrun; cbn in Hrun; injection Hrun as <- <-;
      eexists; (split; [exact Htrace |]); now constructor.
Qed.

Lemma buildImportTx_run utxoset ownerAddresses sourceChain toAddresses fromAddresses
    changeAddresses memo asOf locktime threshold st r st' :
  buildImportTx cls env utxoset ownerAddresses sourceChain toAddresses fromAddresses
                changeAddresses memo asOf locktime threshold st = (r, st') ->
  exists evs, trace st' = trace st ++ evs /\ BuilderRun r evs.
Proof.
  assert (Hearly : forall msg s, sends st s ->
            exists evs, trace s = trace st ++ evs /\ BuilderRun (Throw msg) evs).
  { intros msg s (evs & Htr & Hs). exists evs. split; [exact Htr | now constructor]. }
  unfold buildImportTx. intros Hrun.
  apply bind_inv in Hrun.
  destruct (_cleanAddressArray cls env toAddresses "buildBaseTx" st)
    as [[to0 | msg] s1] eqn:E1;
    apply cleanAddressArray_sends in E1.
  2:{ injection Hrun as -> ->. now apply Hearly. }
  apply bind_inv in Hrun. unfold liftR at 1 in Hrun.
  destruct (mapR (stringToAddress env) to0) as [to | msg].
  2:{ injection Hrun as -> ->. now apply Hearly. }
  apply bind_inv in Hrun.
  destruct (_cleanAddressArray cls env fromAddresses "buildBaseTx" s1)
    as [[from0 | msg] s2] eqn:E2;
    apply cleanAddressArray_sends in E2; pose proof (sends_trans _ _ _ E1 E2) as S2.
  2:{ injection Hrun as -> ->. now apply Hearly. }
  apply bind_inv in Hrun. unfold liftR at 1 in Hrun.
  destruct (mapR (stringToAddress env) from0) as [from | msg].
  2:{ injection Hrun as -> ->. now apply Hearly. }
  apply bind_inv in Hrun.
  destruct (_cleanAddressArray cls env changeAddresses "buildBaseTx" s2)
    as [[change0 | msg] s3] eqn:E3;
    apply cleanAddressArray_sends in E3; pose proof (sends_trans _ _ _ S2 E3) as S3.
  2:{ injection Hrun as -> ->. now apply Hearly. }
  apply bind_inv in Hrun. unfold liftR at 1 in Hrun.
  destruct (mapR (stringToAddress env) change0) as [change | msg].
  2:{ injection Hrun as -> ->. now apply Hearly. }
  apply bind_inv in Hrun.
  match type of Hrun with
  | match ?chains s3 with _ => _ end =>
      destruct (chains s3) as [[chains' | msg] s4] eqn:E4
  end;
    assert (s4 = s3) as ->
      by (clear - E4; destruct sourceChain as [| s0 | b | t];
          unfold bind, throw, ret, liftR in E4;
          [ | destruct (cb58Decode env s0) | | destruct (cb58Encode_nonBuffer env t) ];
          now injection E4).
  2:{ injection Hrun as -> ->. now apply Hearly. }
  cbn zeta in Hrun. apply bind_inv in Hrun.
  destruct (getUTXOs cls env (ManyAddresses ownerAddresses) chains'.1 0 None None s3)
    as [[fetched | msg] s5] eqn:E5;
    apply getUTXOs_sends in E5; pose proof (sends_trans _ _ _ S3 E5) as S5.
  2:{ injection Hrun as -> ->. now apply Hearly. }
  apply bind_inv in Hrun.
  destruct (getAVAXAssetID cls env false s5) as [[avaxAssetID | msg] s6] eqn:E6;
    apply getAVAXAssetID_sends in E6; destruct E6 as [E6 Hcache];
    pose proof (sends_trans _ _ _ S5 E6) as S6.
  2:{ injection Hrun as -> ->. now apply Hearly. }
  destruct (Hcache _ eq_refl) as [Hc Hsome].
  eapply (builder_tail (fun blockchainid fee =>
            UTXOSet_buildImportTx env utxoset
              (mkImportArgs (getNetworkID env) blockchainid
                 to from change (getAllUTXOs (utxos fetched))
                 chains'.2 fee avaxAssetID (normalizeMemo memo)
                 asOf locktime threshold))); [exact S6 | | exact Hrun].
  intros Hcls. rewrite Hc. now apply Hsome.
Qed.

Lemma checkDestinationChain_state destinationChain st r st' :
  checkDestinationChain cls env destinationChain st = (r, st') -> st' = st.
Proof.
  unfold checkDestinationChain, bind, throw, ret, liftR.
  destruct destinationChain as [| s | b | t];
    [ | destruct (cb58Decode env s) as [b |] | | ];
    try destruct (bool_decide (length b <> 32));
    now intros [= _ <-].
Qed.

Lemma buildExportTx_run utxoset amount destinationChain toAddresses fromAddresses
    changeAddresses memo asOf locktime threshold st r st' :
  buildExportTx cls env utxoset amount destinationChain toAddresses fromAddresses
                changeAddresses memo asOf locktime threshold st = (r, st') ->
  exists evs, trace st' = trace st ++ evs /\ BuilderRun r evs.
Proof.
  assert (Hearly : forall msg s, sends st s ->
            exists evs, trace s = trace st ++ evs /\ BuilderRun (Throw msg) evs).
  { intros msg s (evs & Htr & Hs). exists evs. split; [exact Htr | now constructor]. }
  unfold buildExportTx. intros Hrun.
  apply bind_inv in Hrun. rewrite checkPrefixes_run in Hrun.
  destruct (decide (keys_length (collectPrefixes toAddresses) = 1)).
  2:{ injection Hrun as -> ->. apply Hearly, sends_refl. }
  apply bind_inv in Hrun.
  destruct (checkDestinationChain cls env destinationChain st)
    as [[destination | msg] s1] eqn:E1;
    apply checkDestinationChain_state in E1; subst s1.
  2:{ injection Hrun as -> ->. apply Hearly, sends_refl. }
  apply bind_inv in Hrun. unfold liftR at 1 in Hrun.
  destruct (mapR (stringToAddress env) toAddresses) as [to | msg].
  2:{ injection Hrun as -> ->. apply Hearly, sends_refl. }
  apply bind_inv in Hrun.
  destruct (_cleanAddressArray cls env fromAddresses "buildExportTx" st)
    as [[from0 | msg] s2] eqn:E2;
    apply cleanAddressArray_sends in E2.
  2:{ injection Hrun as -> ->. now apply Hearly. }
  apply bind_inv in Hrun. unfold liftR at 1 in Hrun.
  destruct (mapR (stringToAddress env) from0) as [from | msg].
  2:{ injection Hrun as -> ->. now apply Hearly. }
  apply bind_inv in Hrun.
  destruct (_cleanAddressArray cls env changeAddresses "buildExportTx" s2)
    as [[change0 | msg] s3] eqn:E3;
    apply cleanAddressArray_sends in E3; pose proof (sends_trans _ _ _ E2 E3) as S3.
  2:{ injection Hrun as -> ->. now apply Hearly. }
  apply bind_inv in Hrun. unfold liftR at 1 in Hrun.
  destruct (mapR (stringToAddress env) change0) as [change | msg].
  2:{ injection Hrun as -> ->. now apply Hearly. }
  apply bind_inv in Hrun.
  destruct (getAVAXAssetID cls env false s3) as [[avaxAssetID | msg] s4] eqn:E4;
    apply getAVAXAssetID_sends in E4; destruct E4 as [E4 Hcache];
    pose proof (sends_trans _ _ _ S3 E4) as S4.
  2:{ injection Hrun as -> ->. now apply Hearly. }
  destruct (Hcache _ eq_refl) as [Hc Hsome].
  eapply (builder_tail (fun blockchainid fee =>
            UTXOSet_buildExportTx env utxoset
              (mkExportArgs (getNetworkID env) blockchainid amount avaxAssetID
                 to from change
                 destination fee avaxAssetID (normalizeMemo memo)
                 asOf locktime threshold))); [exact S4 | | exact Hrun].
  intros Hcls. rewrite Hc. now apply Hsome.
Qed.

Lemma BuilderRun_guarded st r st' evs :
  trace st' = trace st ++ evs -> BuilderRun r evs -> guarded st (r, st').
Proof.
  intros Htr Hrun. exists evs. split; [exact Htr |].
  assert (Hnot : forall l utx, Forall isSent l -> ~ In (Guard utx false) l).
  { intros l utx Hl Hin. rewrite Forall_forall in Hl.
    apply list_elem_of_In, Hl in Hin. exact Hin. }
  destruct Hrun as [msg pre Hs | msg pre utx Hs | pre utx Hs | pre utx Hs]; cbn [fst];
    split; intros u.
  - discriminate.
  - intros Hin. now apply Hnot in Hin.
  - discriminate.
  - intros Hin. apply in_app_or in Hin as [Hin | [Hin | []]];
      [now apply Hnot in Hin | discriminate].
  - discriminate.
  - intros Hin. apply in_app_or in Hin as [Hin | [Hin | [Hin | []]]];
      [now apply Hnot in Hin | discriminate |].
    injection Hin as <-. eauto.
  - intros [= <-]. eauto.
  - intros Hin. apply in_app_or in Hin as [Hin | [Hin | [Hin | []]]];
      [now apply Hnot in Hin | discriminate | discriminate].
Qed.

(** A cached asset is returned as it is, in both classes. *)
Lemma getAVAXAssetID_cached_run st assetID :
  AVAXAssetID st = Some assetID ->
  getAVAXAssetID cls env false st = (Ok (Some assetID), st).
Proof.
  intros Hc. unfold getAVAXAssetID. destruct cls.
  - unfold gets. now rewrite Hc.
  - now apply ContractVMAPI_getAVAXAssetID_cached.
Qed.

(** The last statements of both builders when nothing throws before the
    guard: the guard decides. *)
Lemma builder_tail_decides (assemble : Buffer -> BN -> Result UnsignedTx)
    st assetID blockchainid fee st1 utx :
  AVAXAssetID st = Some assetID ->
  cb58Decode env (blockchainID st) = Ok blockchainid ->
  getTxFee cls env st = (Ok fee, st1) ->
  assemble blockchainid fee = Ok utx ->
  (id <- gets blockchainID;;
   blockchainid <- liftR (cb58Decode env id);;
   fee <- getTxFee cls env;;
   builtUnsignedTx <- liftR (assemble blockchainid fee);;
   modify (record (Assembled builtUnsignedTx));;;
   passes <- checkGooseEgg cls env builtUnsignedTx 0;;
   if negb passes then throw failedGooseEgg else ret builtUnsignedTx)%api st
  = (if gooseEggVerdict utx assetID then Ok utx else Throw failedGooseEgg,
     record (Guard utx (gooseEggVerdict utx assetID)) (record (Assembled utx) st1)) /\
  checkGooseEgg cls env utx 0 (record (Assembled utx) st1)
  = (Ok (gooseEggVerdict utx assetID),
     record (Guard utx (gooseEggVerdict utx assetID)) (record (Assembled utx) st1)).
Proof.
  intros Hc Hid Hfee Hutx.
  assert (Hc1 : AVAXAssetID (record (Assembled utx) st1) = Some assetID).
  { destruct (getTxFee_quiet st) as (fee' & st' & Hfee' & _ & Hsame).
    rewrite Hfee in Hfee'. injection Hfee' as _ <-. cbn. now rewrite Hsame. }
  assert (Hguard : checkGooseEgg cls env utx 0 (record (Assembled utx) st1)
                   = (Ok (gooseEggVerdict utx assetID),
                      record (Guard utx (gooseEggVerdict utx assetID))
                             (record (Assembled utx) st1))).
  { now rewrite (checkGooseEgg_run _ _ utx 0 _ _ _ (getAVAXAssetID_cached_run _ _ Hc1)). }
  split; [| exact Hguard].
  unfold bind at 1, gets at 1.
  rewrite (bind_liftR_Ok _ _ _ _ Hid), (bind_run_Ok _ _ _ _ _ Hfee),
    (bind_liftR_Ok _ _ _ _ Hutx).
  unfold bind at 1, modify at 1.
  rewrite (bind_run_Ok _ _ _ _ _ Hguard).
  now destruct (gooseEggVerdict utx assetID).
Qed.

(** [buildImportTx] when nothing throws before the guard. *)
Lemma buildImportTx_decides utxoset ownerAddresses sourceChain toAddresses
    fromAddresses changeAddresses memo asOf locktime threshold st
    to0 to s1 from0 from s2 change0 change s3 srcChain source fetched s4
    assetID s5 blockchainid fee s6 utx :
  _cleanAddressArray cls env toAddresses "buildBaseTx" st = (Ok to0, s1) ->
  mapR (stringToAddress env) to0 = Ok to ->
  _cleanAddressArray cls env fromAddresses "buildBaseTx" s1 = (Ok from0, s2) ->
  mapR (stringToAddress env) from0 = Ok from ->
  _cleanAddressArray cls env changeAddresses "buildBaseTx" s2 = (Ok change0, s3) ->
  mapR (stringToAddress env) change0 = Ok change ->
  match sourceChain with
  | ChainString s => srcChain = Some s /\ cb58Decode env s = Ok source
  | ChainBuffer b => srcChain = None /\ source = b
  | _ => False
  end ->
  getUTXOs cls env (ManyAddresses ownerAddresses) srcChain 0 None None s3
  = (Ok fetched, s4) ->
  getAVAXAssetID cls env false s4 = (Ok (Some assetID), s5) ->
  cb58Decode env (blockchainID s5) = Ok blockchainid ->
  getTxFee cls env s5 = (Ok fee, s6) ->
  UTXOSet_buildImportTx env utxoset
    (mkImportArgs (getNetworkID env) blockchainid to from change
                  (getAllUTXOs (utxos fetched)) source fee (Some assetID)
                  (normalizeMemo memo) asOf locktime threshold) = Ok utx ->
  buildImportTx cls env utxoset ownerAddresses sourceChain toAddresses fromAddresses
                changeAddresses memo asOf locktime threshold st
  = (if gooseEggVerdict utx assetID then Ok utx else Throw failedGooseEgg,
     record (Guard utx (gooseEggVerdict utx assetID)) (record (Assembled utx) s6)) /\
  checkGooseEgg cls env utx 0 (record (Assembled utx) s6)
  = (Ok (gooseEggVerdict utx assetID),
     record (Guard utx (gooseEggVerdict utx assetID)) (record (Assembled utx) s6)).
Proof.
  intros H1 H2 H3 H4 H5 H6 Hchain Hfetch Hasset Hid Hfee Hutx.
  unfold buildImportTx.
  rewrite (bind_run_Ok _ _ _ _ _ H1), (bind_liftR_Ok _ _ _ _ H2),
    (bind_run_Ok _ _ _ _ _ H3), (bind_liftR_Ok _ _ _ _ H4),
    (bind_run_Ok _ _ _ _ _ H5), (bind_liftR_Ok _ _ _ _ H6).
  assert (Hchains :
            match sourceChain with
            | ChainUndefined =>
                throw ("Error - " +:+ className cls
                       +:+ ".buildImportTx: Source ChainID is undefined.")
            | ChainString s =>
                (decoded <- liftR (cb58Decode env s);; ret (Some s, decoded))%api
            | ChainBuffer b => ret (None, b)
            | ChainOther type_of =>
                (liftR (cb58Encode_nonBuffer env type_of);;;
                 throw ("Error - " +:+ className cls
                        +:+ ".buildImportTx: Invalid destinationChain type: "
                        +:+ type_of))%api
            end s3 = (Ok (srcChain, source), s3)).
  { destruct sourceChain as [| s | b | t]; try contradiction.
    - destruct Hchain as [-> Hs]. now rewrite (bind_liftR_Ok _ _ _ _ Hs).
    - now destruct Hchain as [-> ->]. }
  rewrite (bind_run_Ok _ _ _ _ _ Hchains). cbn zeta. cbn [fst snd].
  rewrite (bind_run_Ok _ _ _ _ _ Hfetch), (bind_run_Ok _ _ _ _ _ Hasset).
  apply (builder_tail_decides
           (fun blockchainid fee =>
              UTXOSet_buildImportTx env utxoset
                (mkImportArgs (getNetworkID env) blockchainid to from change
                   (getAllUTXOs (utxos fetched)) source fee (Some assetID)
                   (normalizeMemo memo) asOf locktime threshold))
           s5 assetID blockchainid fee s6 utx);
    [| exact Hid | exact Hfee | exact Hutx].
  now destruct (proj2 (getAVAXAssetID_sends false s4 _ _ Hasset) _ eq_refl).
Qed.

(** [buildExportTx] when nothing throws before the guard. *)
Lemma buildExportTx_decides utxoset amount destinationChain toAddresses
    fromAddresses changeAddresses memo asOf locktime threshold st
    destination to from0 from s1 change0 change s2 assetID s3 blockchainid fee s4 utx :
  keys_length (collectPrefixes toAddresses) = 1 ->
  checkDestinationChain cls env destinationChain st = (Ok destination, st) ->
  mapR (stringToAddress env) toAddresses = Ok to ->
  _cleanAddressArray cls env fromAddresses "buildExportTx" st = (Ok from0, s1) ->
  mapR (stringToAddress env) from0 = Ok from ->
  _cleanAddressArray cls env changeAddresses "buildExportTx" s1 = (Ok change0, s2) ->
  mapR (stringToAddress env) change0 = Ok change ->
  getAVAXAssetID cls env false s2 = (Ok (Some assetID), s3) ->
  cb58Decode env (blockchainID s3) = Ok blockchainid ->
  getTxFee cls env s3 = (Ok fee, s4) ->
  UTXOSet_buildExportTx env utxoset
    (mkExportArgs (getNetworkID env) blockchainid amount (Some assetID)
                  to from change destination fee (Some assetID)
                  (normalizeMemo memo) asOf locktime threshold) = Ok utx ->
  buildExportTx cls env utxoset amount destinationChain toAddresses fromAddresses
                changeAddresses memo asOf locktime threshold st
  = (if gooseEggVerdict utx assetID then Ok utx else Throw failedGooseEgg,
     record (Guard utx (gooseEggVerdict utx assetID)) (record (Assembled utx) s4)) /\
  checkGooseEgg cls env utx 0 (record (Assembled utx) s4)
  = (Ok (gooseEggVerdict utx assetID),
     record (Guard utx (gooseEggVerdict utx assetID)) (record (Assembled utx) s4)).
Proof.
  intros Hprefix Hdest H1 H2 H3 H4 H5 Hasset Hid Hfee Hutx.
  unfold buildExportTx.
  assert (Hpre : checkPrefixes cls toAddresses st = (Ok tt, st)).
  { rewrite checkPrefixes_run.
    now destruct (decide (keys_length (collectPrefixes toAddresses) = 1)). }
  rewrite (bind_run_Ok _ _ _ _ _ Hpre), (bind_run_Ok _ _ _ _ _ Hdest),
    (bind_liftR_Ok _ _ _ _ H1),
    (bind_run_Ok _ _ _ _ _ H2), (bind_liftR_Ok _ _ _ _ H3),
    (bind_run_Ok _ _ _ _ _ H4), (bind_liftR_Ok _ _ _ _ H5).
  cbn zeta.
  rewrite (bind_run_Ok _ _ _ _ _ Hasset).
  apply (builder_tail_decides
           (fun blockchainid fee =>
              UTXOSet_buildExportTx env utxoset
                (mkExportArgs (getNetworkID env) blockchainid amount (Some assetID)
                   to from change destination fee (Some assetID)
                   (normalizeMemo memo) asOf locktime threshold))
           s3 assetID blockchainid fee s4 utx);
    [| exact Hid | exact Hfee | exact Hutx].
  now destruct (proj2 (getAVAXAssetID_sends false s2 _ _ Hasset) _ eq_refl).
Qed.

End Builders.

(** C6. Both builders run the guard on the assembled transaction, after the
    assembly and as the last thing before they return.  A transaction that is
    returned was assembled and then accepted by the guard, with no event
    between the two nor after them; if the guard rejects, the run ends with
    the exception "Failed Goose Egg Check" and returns no transaction.  And
    the guard is reached: when no statement before it throws (the address
    arrays are clean, the chain decodes, the node answers, the native asset
    is known and [utxoset] assembles the transaction [utx]), the builder
    runs [checkGooseEgg] on [utx], returns [utx] when the verdict is [true]
    and throws "Failed Goose Egg Check" when it is [false]. *)
Theorem builders_guarded cls env utxoset ownerAddresses amount
    (sourceChain destinationChain : ChainArg) toAddresses exportTo fromAddresses
    changeAddresses memo asOf locktime threshold (st : ApiState) :
  let import :=
    buildImportTx cls env utxoset ownerAddresses sourceChain toAddresses
                  fromAddresses changeAddresses memo asOf locktime threshold st in
  let export :=
    buildExportTx cls env utxoset amount destinationChain exportTo
                  fromAddresses changeAddresses memo asOf locktime threshold st in
  let decided (out : Result UnsignedTx * ApiState) utx assetID assembled :=
    let verdict := gooseEggVerdict utx assetID in
    out = (if verdict then Ok utx else Throw "Failed Goose Egg Check",
           record (Guard utx verdict) (record (Assembled utx) assembled)) /\
    checkGooseEgg cls env utx 0 (record (Assembled utx) assembled)
    = (Ok verdict, record (Guard utx verdict) (record (Assembled utx) assembled)) in
  (guarded st import /\ guarded st export) /\
  (forall to0 to s1 from0 from s2 change0 change s3 srcChain source fetched s4
          assetID s5 blockchainid fee s6 utx,
     _cleanAddressArray cls env toAddresses "buildBaseTx" st = (Ok to0, s1) ->
     mapR (stringToAddress env) to0 = Ok to ->
     _cleanAddressArray cls env fromAddresses "buildBaseTx" s1 = (Ok from0, s2) ->
     mapR (stringToAddress env) from0 = Ok from ->
     _cleanAddressArray cls env changeAddresses "buildBaseTx" s2 = (Ok change0, s3) ->
     mapR (stringToAddress env) change0 = Ok change ->
     match sourceChain with
     | ChainString s => srcChain = Some s /\ cb58Decode env s = Ok source
     | ChainBuffer b => srcChain = None /\ source = b
     | _ => False
     end ->
     getUTXOs cls env (ManyAddresses ownerAddresses) srcChain 0 None None s3
     = (Ok fetched, s4) ->
     getAVAXAssetID cls env false s4 = (Ok (Some assetID), s5) ->
     cb58Decode env (blockchainID s5) = Ok blockchainid ->
     getTxFee cls env s5 = (Ok fee, s6) ->
     UTXOSet_buildImportTx env utxoset
       (mkImportArgs (getNetworkID env) blockchainid to from change
                     (getAllUTXOs (utxos fetched)) source fee (Some assetID)
                     (normalizeMemo memo) asOf locktime threshold) = Ok utx ->
     decided import utx assetID s6) /\
  (forall destination to from0 from s1 change0 change s2 assetID s3 blockchainid
          fee s4 utx,
     keys_length (collectPrefixes exportTo) = 1 ->
     checkDestinationChain cls env destinationChain st = (Ok destination, st) ->
     mapR (stringToAddress env) exportTo = Ok to ->
     _cleanAddressArray cls env fromAddresses "buildExportTx" st = (Ok from0, s1) ->
     mapR (stringToAddress env) from0 = Ok from ->
     _cleanAddressArray cls env changeAddresses "buildExportTx" s1 = (Ok change0, s2) ->
     mapR (stringToAddress env) change0 = Ok change ->
     getAVAXAssetID cls env false s2 = (Ok (Some assetID), s3) ->
     cb58Decode env (blockchainID s3) = Ok blockchainid ->
     getTxFee cls env s3 = (Ok fee, s4) ->
     UTXOSet_buildExportTx env utxoset
       (mkExportArgs (getNetworkID env) blockchainid amount (Some assetID)
                     to from change destination fee (Some assetID)
                     (normalizeMemo memo) asOf locktime threshold) = Ok utx ->
     decided export utx assetID s4).
Proof.
  cbv zeta. split; [split |].
  - destruct (buildImportTx _ _ _ _ _ _ _ _ _ _ _ _ st) as [r st'] eqn:Hrun.
    apply buildImportTx_run in Hrun as (evs & Htr & Hrun).
    now apply BuilderRun_guarded with (evs := evs).
  - destruct (buildExportTx _ _ _ _ _ _ _ _ _ _ _ _ st) as [r st'] eqn:Hrun.
    apply buildExportTx_run in Hrun as (evs & Htr & Hrun).
    now apply BuilderRun_guarded with (evs := evs).
  - split.
    + intros. eapply buildImportTx_decides; eassumption.
    + intros. eapply buildExportTx_decides; eassumption.
Qed.

(** The two builders of [EVMAPI] at a transaction the guard rejects (it burns
    3*10^10 - 7 and creates 7), and the import builder of [ContractVMAPI] at
    one the guard accepts. *)
Lemma builders_guarded_witness :
  let rejected := Demo.tx (3 * 10 ^ 10) 7 in
  let accepted := Demo.tx 10 5 in
  let st := Demo.ready "chain-C-id" in
  let import :=
    buildImportTx EVMAPI (Demo.env [] rejected) [] ["C-owner"]
                  (ChainString Demo.chain32) (Some [AddrString "C-avax1recipient"])
                  None None MemoUndefined 0 0 1 st in
  let export :=
    buildExportTx EVMAPI (Demo.env [] rejected) [] 7 (ChainString Demo.chain32)
                  ["X-a"] None None MemoUndefined 0 0 1 st in
  (guarded st import /\ guarded st export) /\
  import.1 = Throw "Failed Goose Egg Check" /\
  export.1 = Throw "Failed Goose Egg Check" /\
  (buildImportTx ContractVMAPI (Demo.env [] accepted) [] ["P-owner"]
                 (ChainString Demo.chain32) (Some [AddrString "P-avax1recipient"])
                 None None MemoUndefined 0 0 1 (Demo.fresh "chain-P-id")).1
  = Ok accepted.
Proof.
  cbv zeta.
  pose proof (builders_guarded EVMAPI (Demo.env [] (Demo.tx (3 * 10 ^ 10) 7)) []
                ["C-owner"] 7 (ChainString Demo.chain32) (ChainString Demo.chain32)
                (Some [AddrString "C-avax1recipient"]) ["X-a"] None None MemoUndefined
                0 0 1 (Demo.ready "chain-C-id")) as Hrejected.
  cbv beta zeta in Hrejected. destruct Hrejected as [Hguarded [Himport Hexport]].
  pose proof (builders_guarded ContractVMAPI (Demo.env [] (Demo.tx 10 5)) []
                ["P-owner"] 7 (ChainString Demo.chain32) (ChainString Demo.chain32)
                (Some [AddrString "P-avax1recipient"]) ["X-a"] None None MemoUndefined
                0 0 1 (Demo.fresh "chain-P-id")) as Haccepted.
  cbv beta zeta in Haccepted. destruct Haccepted as [_ [Haccepted _]].
  split; [exact Hguarded |]. split; [| split].
  - edestruct Himport as [-> _];
      [reflexivity | reflexivity | reflexivity | reflexivity | reflexivity | reflexivity
      | split; reflexivity | reflexivity | reflexivity | reflexivity | reflexivity
      | reflexivity | reflexivity].
  - edestruct Hexport as [-> _];
      [reflexivity | reflexivity | reflexivity | reflexivity | reflexivity | reflexivity
      | reflexivity | reflexivity | reflexivity | reflexivity | reflexivity
      | reflexivity].
  - edestruct Haccepted as [-> _];
      [reflexivity | reflexivity | reflexivity | reflexivity | reflexivity | reflexivity
      | split; reflexivity | reflexivity | reflexivity | reflexivity | reflexivity
      | reflexivity | reflexivity].
Defined.

(** A run in which the guard rejects: the transaction burns 3*10^10 - 7 and
    creates 7. *)
Example buildExportTx_rejected_run :
  buildExportTx EVMAPI (Demo.env [] (Demo.tx (3 * 10 ^ 10) 7)) [] 7
                (ChainString Demo.chain32) ["X-a"] None None MemoUndefined 0 0 1
                (Demo.ready "chain-C-id")
  = (Throw "Failed Goose Egg Check",
     mkApiState "chain-C-id" (Some "C") (Some Demo.avax) (Some 1000000%Z) None ∅
       [Assembled (Demo.tx (3 * 10 ^ 10) 7);
        Guard (Demo.tx (3 * 10 ^ 10) 7) false]).
Proof. vm_compute. reflexivity. Qed.

(** A run in which the guard accepts. *)
Example buildImportTx_accepted_run :
  (buildImportTx ContractVMAPI (Demo.env [] (Demo.tx 10 5)) [] ["P-owner"]
                 (ChainString Demo.chain32) (Some [AddrString "P-avax1recipient"]) None None
                 MemoUndefined 0 0 1 (Demo.fresh "chain-P-id")).1
  = Ok (Demo.tx 10 5).
Proof. vm_compute. reflexivity. Qed.

(** ** Address validation in [buildImportTx] *)

Section CleanAddresses.

Variable cls : ApiClass.
Variable env : Collaborators.
Variable caller : string.
Variable st1 : ApiState.
Variable alias : option string.
Hypothesis Hstable : getBlockchainAlias env st1 = (Ok alias, st1).

Lemma parseAddress_stable a :
  parseAddress env a st1
  = (bintools_parseAddress env a (blockchainID st1) alias EVMConstants.ADDRESSLENGTH,
     st1).
Proof.
  unfold parseAddress. rewrite (bind_run_Ok _ _ _ _ _ Hstable).
  unfold bind, getBlockchainID, gets, liftR. cbn.
  now destruct (bintools_parseAddress _ _ _ _ _).
Qed.

(** The loop, started once the alias is resolved: the entries are checked in
    order, the first exception ends the loop, and the object stays as it
    is. *)
Lemma cleanLoop_stable entries addrs :
  cleanLoop cls env (if truthy alias then alias else Some (blockchainID st1))
            caller entries addrs st1
  = (match mapR (checkedEntry cls env caller (blockchainID st1) alias) entries with
     | Ok cleaned => Ok (addrs ++ cleaned)
     | Throw msg => Throw msg
     end, st1).
Proof.
  revert addrs.
  induction entries as [| [a | b] rest IH]; intros addrs; cbn [cleanLoop mapR].
  - unfold ret. now rewrite app_nil_r.
  - unfold bind at 1. rewrite parseAddress_stable. unfold checkedEntry.
    destruct (bintools_parseAddress env a (blockchainID st1) alias
                                    EVMConstants.ADDRESSLENGTH) as [[parsed |] | msg].
    + rewrite IH.
      destruct (mapR _ rest) as [cleaned | msg]; [| reflexivity].
      now rewrite <- app_assoc.
    + reflexivity.
    + reflexivity.
  - unfold bind at 1, liftR at 1. unfold checkedEntry.
    destruct (addressToString env (getHRP env) _ b) as [rendered | msg];
      [| reflexivity].
    rewrite IH.
    destruct (mapR _ rest) as [cleaned | msg]; [| reflexivity].
    now rewrite <- app_assoc.
Qed.

End CleanAddresses.

(** [_cleanAddressArray] is the map of [checkedEntry] over the array, on the
    chain and with the alias of the object; it leaves the object as the
    resolution of the alias leaves it. *)
Lemma cleanAddressArray_run cls env addresses caller st st1 alias :
  getBlockchainAlias env st = (Ok alias, st1) ->
  _cleanAddressArray cls env addresses caller st
  = (mapR (checkedEntry cls env caller (blockchainID st) alias) (default [] addresses),
     st1).
Proof.
  intros Hrun.
  assert (Hstable : getBlockchainAlias env st1 = (Ok alias, st1)).
  { pose proof (getBlockchainAlias_idem env st) as Hidem.
    now rewrite Hrun in Hidem. }
  assert (Hid : blockchainID st1 = blockchainID st).
  { destruct (getBlockchainAlias_run env st) as (alias' & Hrun' & _).
    rewrite Hrun in Hrun'. now injection Hrun' as _ ->. }
  unfold _cleanAddressArray. rewrite (bind_run_Ok _ _ _ _ _ Hrun).
  assert (Hchain :
            (if truthy alias then getBlockchainAlias env
             else (id <- getBlockchainID;; ret (Some id))%api) st1
            = (Ok (if truthy alias then alias else Some (blockchainID st1)), st1)).
  { destruct (truthy alias); [exact Hstable | reflexivity]. }
  rewrite (bind_run_Ok _ _ _ _ _ Hchain).
  destruct addresses as [[| e rest] |]; cbn [default from_option id]; try reflexivity.
  rewrite (cleanLoop_stable cls env caller st1 alias Hstable (e :: rest) []).
  rewrite Hid. now destruct (mapR _ (e :: rest)).
Qed.

(** C8, the operation in the message. [buildImportTx] validates its three
    address arrays before anything else and sends nothing when one entry
    fails.  An exception of that validation comes from one entry of the
    array: a string the parser returned [undefined] for, and then the message
    carries the string and, for the operation, the name [buildBaseTx], which
    is the name the three calls of [_cleanAddressArray] pass (the name
    [buildImportTx] is not in it); or a string at which the parser itself
    threw, or a [Buffer] at which the encoder threw, and then the message is
    theirs.  The first string for which the parser returns [undefined], when
    the entries before it pass, ends the call in that way. *)
Theorem buildImportTx_address_error cls env utxoset ownerAddresses sourceChain
    toAddresses fromAddresses changeAddresses memo asOf locktime threshold
    (st : ApiState) :
  (forall msg st',
     _cleanAddressArray cls env toAddresses "buildBaseTx" st = (Throw msg, st') ->
     buildImportTx cls env utxoset ownerAddresses sourceChain toAddresses
                   fromAddresses changeAddresses memo asOf locktime threshold st
     = (Throw msg, st') /\
     trace st' = trace st /\
     exists e, In e (default [] toAddresses) /\
       match e with
       | AddrString a =>
           msg = "Error - " +:+ className cls
                 +:+ ".buildBaseTx: Invalid address format " +:+ a \/
           exists alias,
             bintools_parseAddress env a (blockchainID st) alias
                                   EVMConstants.ADDRESSLENGTH = Throw msg
       | AddrBuffer b =>
           exists chainid, addressToString env (getHRP env) chainid b = Throw msg
       end) /\
  (exists alias st1,
     getBlockchainAlias env st = (Ok alias, st1) /\
     forall before a after,
       toAddresses = Some (before ++ AddrString a :: after) ->
       (forall e, In e before ->
          exists s, checkedEntry cls env "buildBaseTx" (blockchainID st) alias e = Ok s) ->
       bintools_parseAddress env a (blockchainID st) alias EVMConstants.ADDRESSLENGTH
       = Ok None ->
       buildImportTx cls env utxoset ownerAddresses sourceChain toAddresses
                     fromAddresses changeAddresses memo asOf locktime threshold st
       = (Throw ("Error - " +:+ className cls
                 +:+ ".buildBaseTx: Invalid address format " +:+ a), st1) /\
       trace st1 = trace st) /\
  buildImportTx EVMAPI (Demo.env [] (Demo.tx 10 5)) [] ["C-owner"]
                (ChainString Demo.chain32) (Some [AddrString "Q-bad"]) None None
                MemoUndefined 0 0 1 (Demo.ready "chain-C-id")
  = (Throw "Error - EVMAPI.buildBaseTx: Invalid address format Q-bad",
     mkApiState "chain-C-id" (Some "C") (Some Demo.avax) None None ∅ []) /\
  occursIn "Q-bad" "Error - EVMAPI.buildBaseTx: Invalid address format Q-bad" = true /\
  occursIn "buildImportTx"
           "Error - EVMAPI.buildBaseTx: Invalid address format Q-bad" = false.
Proof.
  destruct (getBlockchainAlias_run env st) as (alias & Hrun & _).
  pose proof (cleanAddressArray_run cls env toAddresses "buildBaseTx" st _ alias Hrun)
    as Hclean.
  assert (Htrace : trace (set_blockchainAlias alias st) = trace st) by reflexivity.
  split; [| split; [| split; [vm_compute; reflexivity | split; vm_compute; reflexivity]]].
  - intros msg st' Hthrow. rewrite Hclean in Hthrow. injection Hthrow as Hmap <-.
    split; [| split; [exact Htrace |]].
    + unfold buildImportTx.
      rewrite (bind_run_Throw _ _ _ msg (set_blockchainAlias alias st));
        [reflexivity | now rewrite Hclean, Hmap].
    + apply mapR_Throw_inv in Hmap as (before & e & after & Heq & _ & He).
      exists e. split; [rewrite Heq; apply in_elt |].
      unfold checkedEntry in He. destruct e as [a | b].
      * destruct (bintools_parseAddress env a (blockchainID st) alias
                                        EVMConstants.ADDRESSLENGTH)
          as [[parsed |] | msg'] eqn:Hp.
        -- discriminate.
        -- left. now injection He as <-.
        -- right. exists alias. rewrite Hp. congruence.
      * eauto.
  - exists alias, (set_blockchainAlias alias st). split; [exact Hrun |].
    intros before a after -> Hbefore Hnone. split; [| exact Htrace].
    unfold buildImportTx.
    rewrite (bind_run_Throw _ _ _
               ("Error - " +:+ className cls
                +:+ ".buildBaseTx: Invalid address format " +:+ a)
               (set_blockchainAlias alias st)); [reflexivity |].
    rewrite Hclean. cbn [default from_option id].
    rewrite (mapR_first_Throw _ before (AddrString a) after
               ("Error - " +:+ className cls
                +:+ ".buildBaseTx: Invalid address format " +:+ a) Hbefore);
      [reflexivity |].
    unfold checkedEntry. now rewrite Hnone.
Qed.

(** The sibling builder passes its own name. *)
Example buildExportTx_address_error :
  (buildExportTx EVMAPI (Demo.env [] (Demo.tx 10 5)) [] 5
                 (ChainString Demo.chain32) ["X-a"] (Some [AddrString "Q-bad"]) None
                 MemoUndefined 0 0 1 (Demo.ready "chain-C-id")).1
  = Throw "Error - EVMAPI.buildExportTx: Invalid address format Q-bad".
Proof. vm_compute. reflexivity. Qed.

(** ** The persisted snapshot of [getUTXOs] *)

(** C3, at a key held on both sides. The store holds an output under the
    name ["cache"], the node serves the same key with another serialization,
    and the caller asks to keep what exists.  The merged set holds the stored
    record, and it is what is written back; the set returned to the caller
    holds the served record: it was filled with the fetch before the merge,
    and the merged data are added to it without overwriting. *)
Theorem getUTXOs_returns_fetch_over_merge :
  let env := Demo.env [Demo.servedOutput] (Demo.tx 0 0) in
  let st := Demo.withSnapshot [Demo.storedOutput] in
  let opts := mkPersistanceOptions "cache" true KeepExistingOnConflict in
  let merged :=
    mergeByRule (addArray [Demo.storedOutput] false UTXOSet_new)
                (addArray [Demo.servedOutput] false UTXOSet_new)
                KeepExistingOnConflict in
  let out := getUTXOs EVMAPI env (OneAddress "C-owner") None 0 None (Some opts) st in
  merged = [Demo.storedOutput] /\
  db out.2 !! "cache" = Some (StoredArray (getAllUTXOStrings merged)) /\
  out.1 = Ok (mkUTXOsResult 1 [Demo.servedOutput] Demo.noIndex) /\
  lookupUTXO merged "tx1:0" = Some Demo.storedOutput /\
  lookupUTXO [Demo.servedOutput] "tx1:0" = Some Demo.servedOutput /\
  ~ sameOutputs [Demo.servedOutput] merged.
Proof.
  cbv zeta. repeat split; try (vm_compute; reflexivity).
  intros Hsame. specialize (Hsame "tx1:0"). vm_compute in Hsame. discriminate.
Qed.

Section Snapshot.

Variable cls : ApiClass.
Variable env : Collaborators.

Lemma lookupUTXO_app (set more : UTXOSet) (id : string) :
  lookupUTXO (set ++ more) id
  = match lookupUTXO set id with
    | Some u => Some u
    | None => lookupUTXO more id
    end.
Proof.
  unfold lookupUTXO. induction set as [| v set IH]; cbn [app find]; [reflexivity |].
  now destruct (bool_decide (utxoid v = id)).
Qed.

Lemma includes_lookupUTXO (set : UTXOSet) (id : string) :
  includes set id = true <-> exists u, lookupUTXO set id = Some u.
Proof.
  unfold includes, lookupUTXO. induction set as [| v set IH]; cbn [existsb find].
  - split; [discriminate | intros [u H]; discriminate].
  - destruct (bool_decide (utxoid v = id)); cbn [orb]; [| exact IH].
    split; eauto.
Qed.

(** Adding without [overwrite] never changes the record of a key that is
    there. *)
Lemma UTXOSet_add_keeps (u v : UTXO) (set : UTXOSet) (id : string) :
  lookupUTXO set id = Some v ->
  lookupUTXO (UTXOSet_add u false set) id = Some v.
Proof.
  intros Hv. unfold UTXOSet_add.
  destruct (includes set (utxoid u)); [exact Hv |].
  now rewrite lookupUTXO_app, Hv.
Qed.

Lemma addArray_keeps (data : list UTXO) (v : UTXO) (set : UTXOSet) (id : string) :
  lookupUTXO set id = Some v ->
  lookupUTXO (addArray data false set) id = Some v.
Proof.
  unfold addArray. revert set.
  induction data as [| u data IH]; intros set Hv; cbn [fold_left]; [exact Hv |].
  apply IH. now apply UTXOSet_add_keeps.
Qed.

(** One run of [getUTXOs] with a descriptor, when the node answers: [written]
    is the array handed to [db.set], [base] the set [utxos] before the last
    [addArray]. *)
Lemma getUTXOs_persist_run addresses sourceChain limit startIndex opts st reply :
  node_getUTXOs env (trace st) (getUTXOsCall cls addresses sourceChain limit startIndex)
  = Ok reply ->
  let fetched := r_utxos reply in
  let found :=
    match db st !! getName opts with
    | Some (StoredArray old) =>
        (addArray fetched false UTXOSet_new,
         getAllUTXOStrings
           (UTXOSet_mergeByRule env (addArray old false UTXOSet_new)
                                (addArray fetched false UTXOSet_new)
                                (getMergeRule opts)))
    | _ => (UTXOSet_new, fetched)
    end in
  getUTXOs cls env addresses sourceChain limit startIndex (Some opts) st
  = (Ok (mkUTXOsResult (r_numFetched reply) (addArray found.2 false found.1)
                       (r_endIndex reply)),
     set_db (db_set (getName opts) (StoredArray found.2) (getOverwrite opts) (db st))
            (record (Sent (getUTXOsCall cls addresses sourceChain limit startIndex)) st)).
Proof.
  intros Hnode. cbn zeta.
  unfold getUTXOs, callMethod, bind, gets, modify, liftR, ret. cbn.
  unfold getUTXOsCall in Hnode. rewrite Hnode. unfold db_has.
  destruct (db st !! getName opts) as [[old | other] |] eqn:Hdb; cbn.
  - rewrite ?bool_decide_eq_true_2 by eauto. reflexivity.
  - rewrite ?bool_decide_eq_true_2 by eauto. reflexivity.
  - rewrite ?bool_decide_eq_false_2 by (intros [x Hx]; discriminate). reflexivity.
Qed.

End Snapshot.

(** With a descriptor and an answer from the node.  Without a snapshot under
    the name, the fetched array is written as it came and the returned set is
    the fetch.  With a snapshot, the array written is the receiver of
    [mergeByRule], under the caller's overwrite policy, and the returned set
    keeps, for every key of the fetch, the fetched record. *)
Theorem getUTXOs_snapshot cls env addresses sourceChain limit startIndex opts
    (st : ApiState) reply :
  node_getUTXOs env (trace st) (getUTXOsCall cls addresses sourceChain limit startIndex)
  = Ok reply ->
  let out := getUTXOs cls env addresses sourceChain limit startIndex (Some opts) st in
  let fetched := r_utxos reply in
  (db st !! getName opts = None ->
   db out.2 !! getName opts = Some (StoredArray fetched) /\
   exists res, out.1 = Ok res /\ utxos res = addArray fetched false UTXOSet_new) /\
  (forall old,
     db st !! getName opts = Some (StoredArray old) ->
     let merged :=
       UTXOSet_mergeByRule env (addArray old false UTXOSet_new)
                           (addArray fetched false UTXOSet_new) (getMergeRule opts) in
     db out.2
     = (if getOverwrite opts
        then <[getName opts := StoredArray (getAllUTXOStrings merged)]> (db st)
        else db st) /\
     exists res, out.1 = Ok res /\
       forall id u,
         lookupUTXO (addArray fetched false UTXOSet_new) id = Some u ->
         lookupUTXO (utxos res) id = Some u).
Proof.
  intros Hnode out fetched. subst out.
  rewrite (getUTXOs_persist_run cls env _ _ _ _ opts st reply Hnode). cbn zeta.
  fold fetched. split.
  - intros Hnone. rewrite Hnone. cbn [fst snd set_db db]. split.
    + unfold db_set, db_has.
      rewrite (bool_decide_eq_false_2 (is_Some (db st !! getName opts)))
        by (rewrite Hnone; intros [x Hx]; discriminate).
      rewrite orb_true_r. apply lookup_insert_eq.
    + eexists. split; reflexivity.
  - intros old Hold. rewrite Hold. cbn [fst snd set_db db]. split.
    + unfold db_set, db_has.
      rewrite (bool_decide_eq_true_2 (is_Some (db st !! getName opts)))
        by (rewrite Hold; eauto).
      now destruct (getOverwrite opts).
    + eexists. split; [reflexivity |]. cbn [utxos].
      intros id u Hu. now apply addArray_keeps.
Qed.

(** The theorem at the store and the node of [Demo]: the stored record is
    written back, the served record is returned. *)
Lemma getUTXOs_snapshot_witness :
  let out :=
    getUTXOs EVMAPI (Demo.env [Demo.servedOutput] (Demo.tx 0 0)) (OneAddress "C-owner")
             None 0 None (Some (mkPersistanceOptions "cache" true KeepExistingOnConflict))
             (Demo.withSnapshot [Demo.storedOutput]) in
  db out.2 = <["cache" := StoredArray [Demo.storedOutput]]>
               (db (Demo.withSnapshot [Demo.storedOutput])) /\
  exists res, out.1 = Ok res /\
    forall id u,
      lookupUTXO (addArray [Demo.servedOutput] false UTXOSet_new) id = Some u ->
      lookupUTXO (utxos res) id = Some u.
Proof.
  exact (proj2 (getUTXOs_snapshot EVMAPI (Demo.env [Demo.servedOutput] (Demo.tx 0 0))
                  (OneAddress "C-owner") None 0 None
                  (mkPersistanceOptions "cache" true KeepExistingOnConflict)
                  (Demo.withSnapshot [Demo.storedOutput])
                  (mkUTXOsReply 1 [Demo.servedOutput] Demo.noIndex) eq_refl)
               [Demo.storedOutput] eq_refl).
Defined.

(** [ContractVMAPI.getAVAXAssetID]: the cached asset is returned without a
    request when [refresh] is off; otherwise one [platform.getStakingAssetID]
    request is sent and its answer is decoded, cached and returned. *)
Theorem ContractVMAPI_getAVAXAssetID_caches env (refresh : bool) (st : ApiState) :
  (forall assetID,
     AVAXAssetID st = Some assetID -> refresh = false ->
     getAVAXAssetID ContractVMAPI env refresh st = (Ok (Some assetID), st)) /\
  (forall text decoded,
     AVAXAssetID st = None \/ refresh = true ->
     node_getStakingAssetID env (trace st) = Ok text ->
     cb58Decode env text = Ok decoded ->
     getAVAXAssetID ContractVMAPI env refresh st
     = (Ok (Some decoded),
        set_AVAXAssetID (Some decoded)
          (record (Sent (mkRpcCall "platform.getStakingAssetID" NoParams)) st))).
Proof.
  split.
  - intros assetID Hc ->. now apply ContractVMAPI_getAVAXAssetID_cached.
  - intros text decoded. apply ContractVMAPI_getAVAXAssetID_lookup.
Qed.

(** For prefixes other than [__proto__], the test of [buildExportTx] passes
    on a non-empty list with one prefix and throws on a list with two. *)
Theorem checkPrefixes_ordinary cls (toAddresses : list string) (st : ApiState) :
  (forall p,
     toAddresses <> [] -> p <> "__proto__" ->
     (forall a, In a toAddresses -> split_head a = p) ->
     checkPrefixes cls toAddresses st = (Ok tt, st)) /\
  (forall a b,
     In a toAddresses -> In b toAddresses ->
     split_head a <> split_head b ->
     split_head a <> "__proto__" -> split_head b <> "__proto__" ->
     checkPrefixes cls toAddresses st = (Throw (mixedPrefixMessage cls), st)).
Proof.
  split.
  - intros p. apply checkPrefixes_one_prefix.
  - intros a b. apply checkPrefixes_two_prefixes.
Qed.

(** ** What the methods leave alone *)

Section Frames.

Variable P : Event -> Prop.

Lemma frame_refl st : frame P st st.
Proof.
  repeat split. exists []. split; [now rewrite app_nil_r | intros e []].
Qed.

Lemma frame_trans st1 st2 st3 : frame P st1 st2 -> frame P st2 st3 -> frame P st1 st3.
Proof.
  intros (Hi1 & Hd1 & Hc1 & e1 & Ht1 & Hp1) (Hi2 & Hd2 & Hc2 & e2 & Ht2 & Hp2).
  split; [congruence |]. split; [congruence |]. split; [congruence |].
  exists (e1 ++ e2). split.
  - now rewrite Ht2, Ht1, app_assoc.
  - intros e Hin. apply in_app_or in Hin as [Hin | Hin]; auto.
Qed.

Lemma frame_cache st st' :
  blockchainID st' = blockchainID st -> db st' = db st ->
  creationTxFee st' = creationTxFee st -> trace st' = trace st ->
  frame P st st'.
Proof.
  intros Hi Hd Hc Ht. split; [exact Hi |]. split; [exact Hd |]. split; [exact Hc |].
  exists []. split; [now rewrite app_nil_r | intros e []].
Qed.

Lemma frame_record e st : P e -> frame P st (record e st).
Proof.
  intros He. repeat split. exists [e]. split; [reflexivity |].
  now intros e' [<- | []].
Qed.

Lemma keeps_ret {A} (a : A) : keeps (frame P) (ret a).
Proof. intros st. apply frame_refl. Qed.

Lemma keeps_throw {A} msg : keeps (frame P) (@throw A msg).
Proof. intros st. apply frame_refl. Qed.

Lemma keeps_liftR {A} (r : Result A) : keeps (frame P) (liftR r).
Proof. intros st. apply frame_refl. Qed.

Lemma keeps_gets {A} (f : ApiState -> A) : keeps (frame P) (gets f).
Proof. intros st. apply frame_refl. Qed.

Lemma keeps_modify f : (forall st, frame P st (f st)) -> keeps (frame P) (modify f).
Proof. intros Hf st. apply Hf. Qed.

Lemma keeps_bind {A B} (m : M A) (k : A -> M B) :
  keeps (frame P) m -> (forall a, keeps (frame P) (k a)) -> keeps (frame P) (bind m k).
Proof.
  intros Hm Hk st. unfold bind. specialize (Hm st).
  destruct (m st) as [[a | msg] st1]; cbn [snd] in *; [| exact Hm].
  eapply frame_trans; [exact Hm | apply Hk].
Qed.

(** The same, knowing that the value handed on was returned by some run. *)
Lemma keeps_bind_value {A B} (m : M A) (k : A -> M B) :
  keeps (frame P) m ->
  (forall a, (exists st st', m st = (Ok a, st')) -> keeps (frame P) (k a)) ->
  keeps (frame P) (bind m k).
Proof.
  intros Hm Hk st. unfold bind. specialize (Hm st).
  destruct (m st) as [[a | msg] st1] eqn:E; cbn [snd] in *; [| exact Hm].
  eapply frame_trans; [exact Hm | apply Hk; eauto].
Qed.

End Frames.

Lemma frame_weaken (P Q : Event -> Prop) st st' :
  (forall e, P e -> Q e) -> frame P st st' -> frame Q st st'.
Proof.
  intros HPQ (Hi & Hd & Hc & evs & Ht & Hp).
  split; [exact Hi |]. split; [exact Hd |]. split; [exact Hc |].
  exists evs. split; [exact Ht | auto].
Qed.

Lemma frame_silent st st' : frame silent st st' -> trace st' = trace st.
Proof.
  intros (_ & _ & _ & evs & Ht & Hp). destruct evs as [| e evs].
  - now rewrite app_nil_r in Ht.
  - contradiction (Hp e). now left.
Qed.

(** One step of a proof that a method body keeps a frame: the monad's
    operations, then a case analysis on what the body branches on. *)
Ltac frame_step :=
  first
    [ apply keeps_ret | apply keeps_throw | apply keeps_liftR | apply keeps_gets
    | apply keeps_bind; [| intros ?]
    | apply keeps_modify; intros ?;
      first [ apply frame_cache; reflexivity
            | apply frame_record; auto ]
    | match goal with
      | |- keeps _ (match ?x with _ => _ end) => destruct x
      end ].

Section FramedMethods.

Variable cls : ApiClass.
Variable env : Collaborators.
Variable P : Event -> Prop.

Lemma getBlockchainAlias_keeps : keeps (frame P) (getBlockchainAlias env).
Proof. unfold getBlockchainAlias. repeat frame_step. Qed.

Lemma parseAddress_keeps a : keeps (frame P) (parseAddress env a).
Proof.
  unfold parseAddress, getBlockchainID.
  apply keeps_bind; [apply getBlockchainAlias_keeps | intros alias].
  repeat frame_step.
Qed.

Lemma cleanLoop_keeps chainid caller addresses addrs :
  keeps (frame P) (cleanLoop cls env chainid caller addresses addrs).
Proof.
  revert addrs. induction addresses as [| [a | b] rest IH]; intros addrs; cbn [cleanLoop].
  - apply keeps_ret.
  - apply keeps_bind; [apply parseAddress_keeps | intros [parsed |]].
    + apply IH.
    + apply keeps_throw.
  - apply keeps_bind; [apply keeps_liftR | intros rendered; apply IH].
Qed.

Lemma cleanAddressArray_keeps addresses caller :
  keeps (frame P) (_cleanAddressArray cls env addresses caller).
Proof.
  unfold _cleanAddressArray, getBlockchainID.
  apply keeps_bind; [apply getBlockchainAlias_keeps | intros alias].
  apply keeps_bind.
  - destruct (truthy alias); [apply getBlockchainAlias_keeps | repeat frame_step].
  - intros chainid. destruct addresses as [[| e rest] |];
      [apply keeps_ret | apply cleanLoop_keeps | apply keeps_ret].
Qed.

Lemma getTxFee_keeps : keeps (frame P) (getTxFee cls env).
Proof. unfold getTxFee. repeat frame_step. Qed.

Lemma callMethod_keeps {A} call (answer : list Event -> Result A) :
  P (Sent call) -> keeps (frame P) (callMethod call answer).
Proof.
  intros Hcall. unfold callMethod. repeat frame_step.
Qed.

Lemma getAVAXAssetID_keeps refresh :
  (cls = ContractVMAPI -> P (Sent stakingLookup)) ->
  keeps (frame P) (getAVAXAssetID cls env refresh).
Proof.
  intros HP. unfold getAVAXAssetID. destruct cls; [apply keeps_gets |].
  apply keeps_bind; [apply keeps_gets | intros cached].
  apply keeps_bind; [| intros _; apply keeps_gets].
  destruct (bool_decide (cached = None) || refresh); [| apply keeps_ret].
  apply keeps_bind; [apply callMethod_keeps; now apply HP | intros assetID].
  repeat frame_step.
Qed.

Lemma checkGooseEgg_keeps utx outTotal :
  (cls = ContractVMAPI -> P (Sent stakingLookup)) ->
  (forall verdict, P (Guard utx verdict)) ->
  keeps (frame P) (checkGooseEgg cls env utx outTotal).
Proof.
  intros HP HG. unfold checkGooseEgg.
  apply keeps_bind; [now apply getAVAXAssetID_keeps | intros [assetID |]].
  - cbn zeta. repeat frame_step.
  - apply keeps_throw.
Qed.

Lemma getUTXOs_keeps addresses sourceChain limit startIndex :
  P (Sent (getUTXOsCall cls addresses sourceChain limit startIndex)) ->
  keeps (frame P) (getUTXOs cls env addresses sourceChain limit startIndex None).
Proof.
  intros HP. unfold getUTXOs. cbn zeta.
  apply keeps_bind; [apply callMethod_keeps; exact HP | intros response].
  repeat frame_step.
Qed.

(** The last statements of a builder. *)
Lemma builder_tail_keeps (assemble : Buffer -> BN -> Result UnsignedTx) :
  (cls = ContractVMAPI -> P (Sent stakingLookup)) ->
  (forall utx, P (Assembled utx)) ->
  (forall utx verdict, P (Guard utx verdict)) ->
  keeps (frame P)
    (id <- gets blockchainID;;
     blockchainid <- liftR (cb58Decode env id);;
     fee <- getTxFee cls env;;
     builtUnsignedTx <- liftR (assemble blockchainid fee);;
     modify (record (Assembled builtUnsignedTx));;;
     passes <- checkGooseEgg cls env builtUnsignedTx 0;;
     if negb passes then throw failedGooseEgg else ret builtUnsignedTx)%api.
Proof.
  intros HP HA HG.
  apply keeps_bind; [apply keeps_gets | intros id].
  apply keeps_bind; [apply keeps_liftR | intros blockchainid].
  apply keeps_bind; [apply getTxFee_keeps | intros fee].
  apply keeps_bind; [apply keeps_liftR | intros utx].
  apply keeps_bind; [repeat frame_step | intros _].
  apply keeps_bind; [now apply checkGooseEgg_keeps | intros passes].
  destruct (negb passes); [apply keeps_throw | apply keeps_ret].
Qed.

End FramedMethods.

(** [buildExportTx] never writes the store and changes neither
    [blockchainID] nor the creation fee.  In [EVMAPI] it hands no request to
    the transport; in [ContractVMAPI] the only request it can send is the
    lookup of the staking asset. *)
Theorem buildExportTx_frame cls env utxoset amount destinationChain toAddresses
    fromAddresses changeAddresses memo asOf locktime threshold (st : ApiState) :
  frame (sending (fun call => cls = ContractVMAPI /\ call = stakingLookup)) st
        (buildExportTx cls env utxoset amount destinationChain toAddresses
                       fromAddresses changeAddresses memo asOf locktime threshold st).2.
Proof.
  revert st.
  change (keeps (frame (sending (fun call => cls = ContractVMAPI /\ call = stakingLookup)))
            (buildExportTx cls env utxoset amount destinationChain toAddresses
               fromAddresses changeAddresses memo asOf locktime threshold)).
  unfold buildExportTx.
  apply keeps_bind; [unfold checkPrefixes; cbn zeta; repeat frame_step | intros _].
  apply keeps_bind; [unfold checkDestinationChain; repeat frame_step | intros destination].
  apply keeps_bind; [apply keeps_liftR | intros to].
  apply keeps_bind; [apply cleanAddressArray_keeps | intros from0].
  apply keeps_bind; [apply keeps_liftR | intros from].
  apply keeps_bind; [apply cleanAddressArray_keeps | intros change0].
  apply keeps_bind; [apply keeps_liftR | intros change].
  apply keeps_bind; [apply getAVAXAssetID_keeps; now split | intros avaxAssetID].
  apply (builder_tail_keeps cls env _
           (fun blockchainid fee =>
              UTXOSet_buildExportTx env utxoset
                (mkExportArgs (getNetworkID env) blockchainid amount avaxAssetID
                   to from change destination fee avaxAssetID (normalizeMemo memo)
                   asOf locktime threshold))); cbn; auto.
Qed.

(** [buildImportTx] never writes the store (its fetch asks for no
    persistence) and changes neither [blockchainID] nor the creation fee.
    The only requests it can send are its fetch, for [ownerAddresses] with
    limit 0 and no start index, carrying a [sourceChain] member only when the
    argument came as a string, and in [ContractVMAPI] the lookup of the
    staking asset. *)
Theorem buildImportTx_frame cls env utxoset ownerAddresses sourceChain toAddresses
    fromAddresses changeAddresses memo asOf locktime threshold (st : ApiState) :
  frame (sending (fun call => call = importFetch cls ownerAddresses sourceChain \/
                              (cls = ContractVMAPI /\ call = stakingLookup))) st
        (buildImportTx cls env utxoset ownerAddresses sourceChain toAddresses
                       fromAddresses changeAddresses memo asOf locktime threshold st).2.
Proof.
  revert st.
  change (keeps (frame (sending
                   (fun call => call = importFetch cls ownerAddresses sourceChain \/
                                (cls = ContractVMAPI /\ call = stakingLookup))))
            (buildImportTx cls env utxoset ownerAddresses sourceChain toAddresses
               fromAddresses changeAddresses memo asOf locktime threshold)).
  unfold buildImportTx.
  apply keeps_bind; [apply cleanAddressArray_keeps | intros to0].
  apply keeps_bind; [apply keeps_liftR | intros to].
  apply keeps_bind; [apply cleanAddressArray_keeps | intros from0].
  apply keeps_bind; [apply keeps_liftR | intros from].
  apply keeps_bind; [apply cleanAddressArray_keeps | intros change0].
  apply keeps_bind; [apply keeps_liftR | intros change].
  apply keeps_bind_value.
  { destruct sourceChain; repeat frame_step. }
  intros chains (st0 & st1 & Hchains).
  assert (Hsrc : getUTXOsCall cls (ManyAddresses ownerAddresses) chains.1 0 None
                 = importFetch cls ownerAddresses sourceChain).
  { unfold importFetch. f_equal.
    destruct sourceChain as [| s | b | t]; unfold bind, throw, ret, liftR in Hchains.
    - discriminate.
    - destruct (cb58Decode env s); [now injection Hchains as <- | discriminate].
    - now injection Hchains as <-.
    - destruct (cb58Encode_nonBuffer env t); discriminate. }
  cbn zeta.
  apply keeps_bind; [apply getUTXOs_keeps; cbn; now left | intros fetched].
  apply keeps_bind; [apply getAVAXAssetID_keeps; intros; cbn; right; now split |].
  intros avaxAssetID.
  apply (builder_tail_keeps cls env _
           (fun blockchainid fee =>
              UTXOSet_buildImportTx env utxoset
                (mkImportArgs (getNetworkID env) blockchainid to from change
                   (getAllUTXOs (utxos fetched)) chains.2 fee avaxAssetID
                   (normalizeMemo memo) asOf locktime threshold))); cbn; auto.
Qed.

(** ** The source chain of an import *)

Lemma bind_throws {A B} (m : M A) (k : A -> M B) st :
  (forall a st1, exists msg, (k a st1).1 = Throw msg) ->
  exists msg, (bind m k st).1 = Throw msg.
Proof.
  intros Hk. unfold bind. destruct (m st) as [[a | msg] st1]; [apply Hk | now exists msg].
Qed.

Lemma getUTXOs_trace_exact cls env addresses sourceChain limit startIndex persistOpts st :
  trace (getUTXOs cls env addresses sourceChain limit startIndex persistOpts st).2
  = trace st ++ [Sent (getUTXOsCall cls addresses sourceChain limit startIndex)].
Proof.
  unfold getUTXOs, getUTXOsCall. cbn zeta.
  match goal with
  | |- context [bind (callMethod ?c ?a) ?k st] =>
      pose proof (callMethod_trace c a st) as Hcall;
      unfold bind at 1; destruct (callMethod c a st) as [[response | msg] st1]
  end; cbn [snd] in Hcall.
  - destruct persistOpts as [opts |];
      unfold bind, gets, modify, ret; cbn; exact Hcall.
  - exact Hcall.
Qed.

(** Absent address arrays are cleaned to the empty array. *)
Lemma cleanAddressArray_absent cls env caller st :
  exists st1,
    _cleanAddressArray cls env None caller st = (Ok [], st1) /\ trace st1 = trace st.
Proof.
  pose proof (cleanAddressArray_quiet cls env None caller st) as Hq.
  unfold _cleanAddressArray, bind, getBlockchainID, gets, ret in *.
  destruct (getBlockchainAlias env st) as [[alias | msg] st1] eqn:E1.
  2:{ exfalso. unfold getBlockchainAlias, bind, gets, modify, ret in E1.
      destruct (blockchainAlias st); [discriminate |].
      destruct (Defaults_network env !! getNetworkID env) as [net |]; [| discriminate].
      destruct (nd_members net !! blockchainID st); discriminate. }
  destruct (truthy alias).
  - destruct (getBlockchainAlias env st1) as [[chainid | msg] st2] eqn:E2.
    + eexists. split; [reflexivity | exact Hq].
    + exfalso. unfold getBlockchainAlias, bind, gets, modify, ret in E2.
      destruct (blockchainAlias st1); [discriminate |].
      destruct (Defaults_network env !! getNetworkID env) as [net |]; [| discriminate].
      destruct (nd_members net !! blockchainID st1); discriminate.
  - eexists. split; [reflexivity | exact Hq].
Qed.

(** [buildImportTx] and its [sourceChain].  An absent source chain, or one
    that is neither a string nor a [Buffer], ends the call in an exception
    before anything is sent.  With no address arrays to validate, the message
    for an absent chain is "Source ChainID is undefined."; a value that is
    neither a string nor a [Buffer] is first given to [bintools.cb58Encode]:
    when the encoder throws, its exception is what the caller gets, and only
    when it returns is the message "Invalid destinationChain type" (the text
    of the export builder) thrown.  A [Buffer] is taken whatever its length,
    there is no test of 32 bytes here, and the fetch is then sent without a
    [sourceChain] member. *)
Theorem buildImportTx_sourceChain cls env utxoset ownerAddresses toAddresses
    fromAddresses changeAddresses memo asOf locktime threshold (st : ApiState) :
  let run sourceChain addresses :=
    buildImportTx cls env utxoset ownerAddresses sourceChain
                  addresses.1.1 addresses.1.2 addresses.2
                  memo asOf locktime threshold st in
  let given := (toAddresses, fromAddresses, changeAddresses) in
  let absent := (None, None, None) in
  ((exists msg, (run ChainUndefined given).1 = Throw msg) /\
   trace (run ChainUndefined given).2 = trace st) /\
  (forall t,
     (exists msg, (run (ChainOther t) given).1 = Throw msg) /\
     trace (run (ChainOther t) given).2 = trace st) /\
  (run ChainUndefined absent).1
  = Throw ("Error - " +:+ className cls
           +:+ ".buildImportTx: Source ChainID is undefined.") /\
  (forall t,
     (run (ChainOther t) absent).1
     = match cb58Encode_nonBuffer env t with
       | Ok encoded =>
           Throw ("Error - " +:+ className cls
                  +:+ ".buildImportTx: Invalid destinationChain type: " +:+ t)
       | Throw msg => Throw msg
       end) /\
  (forall b : Buffer,
     exists evs,
       trace (run (ChainBuffer b) absent).2
       = trace st
         ++ Sent (getUTXOsCall cls (ManyAddresses ownerAddresses) None 0 None) :: evs).
Proof.
  cbv zeta. cbn [fst snd].
  assert (Hbad : forall sourceChain,
             sourceChain = ChainUndefined \/ (exists t, sourceChain = ChainOther t) ->
             (exists msg,
                (buildImportTx cls env utxoset ownerAddresses sourceChain toAddresses
                   fromAddresses changeAddresses memo asOf locktime threshold st).1
                = Throw msg) /\
             trace (buildImportTx cls env utxoset ownerAddresses sourceChain toAddresses
                      fromAddresses changeAddresses memo asOf locktime threshold st).2
             = trace st).
  { intros sourceChain Hsc. split.
    - unfold buildImportTx. do 6 (apply bind_throws; intros ? ?).
      unfold bind at 1.
      destruct Hsc as [-> | [t ->]]; unfold bind, throw, liftR.
      + now eexists.
      + destruct (cb58Encode_nonBuffer env t); now eexists.
    - apply frame_silent. revert st.
      change (keeps (frame silent)
                (buildImportTx cls env utxoset ownerAddresses sourceChain toAddresses
                   fromAddresses changeAddresses memo asOf locktime threshold)).
      unfold buildImportTx.
      apply keeps_bind; [apply cleanAddressArray_keeps | intros to0].
      apply keeps_bind; [apply keeps_liftR | intros to].
      apply keeps_bind; [apply cleanAddressArray_keeps | intros from0].
      apply keeps_bind; [apply keeps_liftR | intros from].
      apply keeps_bind; [apply cleanAddressArray_keeps | intros change0].
      apply keeps_bind; [apply keeps_liftR | intros change].
      apply keeps_bind_value.
      { destruct sourceChain; repeat frame_step. }
      intros chains (st0 & st1 & Hchains). exfalso.
      destruct Hsc as [-> | [t ->]]; unfold bind, throw, liftR in Hchains;
        [| destruct (cb58Encode_nonBuffer env t)]; discriminate. }
  split; [apply Hbad; now left |].
  split; [intros t; apply Hbad; right; now exists t |].
  destruct (cleanAddressArray_absent cls env "buildBaseTx" st) as (s1 & E1 & T1).
  destruct (cleanAddressArray_absent cls env "buildBaseTx" s1) as (s2 & E2 & T2).
  destruct (cleanAddressArray_absent cls env "buildBaseTx" s2) as (s3 & E3 & T3).
  assert (Hstart : forall k : list Buffer -> list Buffer -> list Buffer -> M UnsignedTx,
             (to0 <- _cleanAddressArray cls env None "buildBaseTx";;
              to <- liftR (mapR (stringToAddress env) to0);;
              from0 <- _cleanAddressArray cls env None "buildBaseTx";;
              from <- liftR (mapR (stringToAddress env) from0);;
              change0 <- _cleanAddressArray cls env None "buildBaseTx";;
              change <- liftR (mapR (stringToAddress env) change0);;
              k to from change)%api st
             = k [] [] [] s3).
  { intros k.
    rewrite (bind_run_Ok _ _ _ _ _ E1). unfold liftR at 1, bind at 1. cbn [mapR].
    rewrite (bind_run_Ok _ _ _ _ _ E2). unfold liftR at 1, bind at 1. cbn [mapR].
    rewrite (bind_run_Ok _ _ _ _ _ E3). unfold liftR at 1, bind at 1. cbn [mapR].
    reflexivity. }
  split; [| split].
  - unfold buildImportTx. rewrite Hstart. reflexivity.
  - intros t. unfold buildImportTx. rewrite Hstart.
    unfold bind, liftR, throw. now destruct (cb58Encode_nonBuffer env t).
  - intros b. unfold buildImportTx. rewrite Hstart.
    unfold bind at 1. unfold ret at 1. cbn [fst snd].
    pose proof (getUTXOs_trace_exact cls env (ManyAddresses ownerAddresses) None 0
                  None None s3) as Hfetch.
    unfold bind at 1.
    destruct (getUTXOs cls env (ManyAddresses ownerAddresses) None 0 None None s3)
      as [[fetched | msg] s4]; cbn [snd] in Hfetch.
    + lazymatch goal with
      | |- exists evs, trace (?rest s4).2 = _ =>
          assert (Hrest : keeps (frame (fun _ => True)) rest)
      end.
      { apply keeps_bind; [apply getAVAXAssetID_keeps; auto | intros avaxAssetID].
        apply (builder_tail_keeps cls env _
                 (fun blockchainid fee =>
                    UTXOSet_buildImportTx env utxoset
                      (mkImportArgs (getNetworkID env) blockchainid [] [] []
                         (getAllUTXOs (utxos fetched)) b fee avaxAssetID
                         (normalizeMemo memo) asOf locktime threshold))); auto. }
      destruct (Hrest s4) as (_ & _ & _ & evs & Ht & _).
      exists evs. rewrite Ht, Hfetch, T3, T2, T1, <- app_assoc. reflexivity.
    + exists []. cbn [snd]. now rewrite Hfetch, T3, T2, T1.
Qed.

(** ** The caches of the object *)

Lemma set_txFee_same st : set_txFee (txFee st) st = st.
Proof. now destruct st. Qed.

Lemma set_creationTxFee_same st : set_creationTxFee (creationTxFee st) st = st.
Proof. now destruct st. Qed.

(** [getBlockchainAlias] memoizes.  It never throws; the alias it returns is
    the one the cache holds afterwards; a second call returns the same alias
    and changes nothing; no field but the cache is touched; a cached alias is
    returned as it is, whatever the defaults say; and the alias given to
    [setBlockchainAlias] is what the next call returns. *)
Theorem getBlockchainAlias_memo env (st : ApiState) :
  let out := getBlockchainAlias env st in
  (exists alias, out.1 = Ok alias /\ blockchainAlias out.2 = alias) /\
  getBlockchainAlias env out.2 = out /\
  out.2 = set_blockchainAlias (blockchainAlias out.2) st /\
  (forall a, blockchainAlias st = Some a -> out = (Ok (Some a), st)) /\
  (forall a,
     (setBlockchainAlias a;;; getBlockchainAlias env)%api st
     = (Ok (Some a), set_blockchainAlias (Some a) st)).
Proof.
  cbv zeta. split; [| split; [apply getBlockchainAlias_idem |]].
  - destruct (getBlockchainAlias_run env st) as (alias & -> & _).
    exists alias. now split.
  - destruct (getBlockchainAlias_run env st) as (alias & Hrun & Hcached).
    rewrite Hrun. cbn [fst snd]. split; [reflexivity | split].
    + intros a Ha. rewrite (Hcached a Ha), <- Ha. now rewrite set_blockchainAlias_same.
    + intros a. reflexivity.
Qed.

(** [refreshBlockchainID] writes the field [blockchainID] and nothing else:
    an alias that is already cached stays, and [getBlockchainAlias] goes on
    returning it for the new chain. *)
Theorem refreshBlockchainID_keeps_alias cls env (arg : ChainIDArg) (st : ApiState) :
  let out := refreshBlockchainID cls env arg st in
  out.2 = set_blockchainID (blockchainID out.2) st /\
  (forall a,
     blockchainAlias st = Some a ->
     getBlockchainAlias env out.2 = (Ok (Some a), out.2)).
Proof.
  cbv zeta.
  assert (Hsame : forall s, set_blockchainID (blockchainID s) s = s) by now intros [].
  assert (Hfield : blockchainAlias (refreshBlockchainID cls env arg st).2
                   = blockchainAlias st).
  { unfold refreshBlockchainID, bind, modify, ret.
    destruct arg, (Defaults_network env !! getNetworkID env); reflexivity. }
  split.
  - unfold refreshBlockchainID, bind, modify, ret.
    destruct arg, (Defaults_network env !! getNetworkID env); cbn; now rewrite ?Hsame.
  - intros a Ha. rewrite <- Hfield in Ha.
    destruct (getBlockchainAlias_run env (refreshBlockchainID cls env arg st).2)
      as (alias & Hrun & Hcached).
    rewrite Hrun, (Hcached a Ha), <- Ha. now rewrite set_blockchainAlias_same.
Qed.

(** An object on the C-Chain resolves its alias, then moves to the P-Chain:
    the alias is still the one of the C-Chain, where a new object on the
    P-Chain gets the one of the P-Chain. *)
Lemma refreshBlockchainID_keeps_alias_witness :
  let env := Demo.env [] (Demo.tx 0 0) in
  let resolved := (getBlockchainAlias env (Demo.fresh "chain-C-id")).2 in
  let moved := (refreshBlockchainID EVMAPI env (IDString "chain-P-id") resolved).2 in
  blockchainID moved = "chain-P-id" /\
  getBlockchainAlias env moved = (Ok (Some "C"), moved) /\
  (getBlockchainAlias env (Demo.fresh "chain-P-id")).1 = Ok (Some "P").
Proof.
  cbv zeta. split; [reflexivity |]. split; [| reflexivity].
  apply (proj2 (refreshBlockchainID_keeps_alias EVMAPI (Demo.env [] (Demo.tx 0 0))
                  (IDString "chain-P-id")
                  (getBlockchainAlias (Demo.env [] (Demo.tx 0 0))
                                      (Demo.fresh "chain-C-id")).2)).
  reflexivity.
Defined.

(** The transfer fee is resolved once.  [getTxFee] returns the cached fee if
    there is one, the default of the network otherwise (the member ["C"] in
    [EVMAPI], ["P"] in [ContractVMAPI], zero when the network has no
    defaults), and the fee it returned is in the cache afterwards; a second
    call returns the same fee and changes nothing; [setTxFee] decides what
    the next call returns; the creation fee is not touched. *)
Theorem getTxFee_cache cls env (st : ApiState) :
  let out := getTxFee cls env st in
  (exists fee,
     out = (Ok fee, set_txFee (Some fee) st) /\
     (forall cached, txFee st = Some cached -> fee = cached) /\
     (txFee st = None -> fee = getDefaultTxFee cls env)) /\
  getTxFee cls env out.2 = out /\
  (forall fee,
     (setTxFee fee;;; getTxFee cls env)%api st = (Ok fee, set_txFee (Some fee) st)) /\
  (Defaults_network env !! getNetworkID env = None -> getDefaultTxFee cls env = 0%Z) /\
  (forall net,
     Defaults_network env !! getNetworkID env = Some net ->
     getDefaultTxFee cls env
     = cd_txFee match cls with EVMAPI => nd_C net | ContractVMAPI => nd_P net end) /\
  creationTxFee out.2 = creationTxFee st.
Proof.
  cbv zeta. unfold getTxFee, setTxFee, bind, gets, modify, ret.
  destruct (txFee st) as [cached |] eqn:Hfee; cbn.
  - rewrite Hfee. split; [| split; [reflexivity | split; [reflexivity | split; [| split]]]].
    + exists cached. split; [now rewrite <- Hfee, set_txFee_same |].
      split; [now intros c [= <-] | discriminate].
    + unfold getDefaultTxFee. now intros ->.
    + unfold getDefaultTxFee. now intros net ->.
    + reflexivity.
  - split; [| split; [reflexivity | split; [reflexivity | split; [| split]]]].
    + eexists. split; [reflexivity |]. split; [discriminate | reflexivity].
    + unfold getDefaultTxFee. now intros ->.
    + unfold getDefaultTxFee. now intros net ->.
    + reflexivity.
Qed.

(** The creation fee is resolved once, in the same way and from the member
    [creationTxFee] of the defaults; the transfer fee is not touched. *)
Theorem getCreationTxFee_cache cls env (st : ApiState) :
  let out := getCreationTxFee cls env st in
  (exists fee,
     out = (Ok fee, set_creationTxFee (Some fee) st) /\
     (forall cached, creationTxFee st = Some cached -> fee = cached) /\
     (creationTxFee st = None -> fee = getDefaultCreationTxFee cls env)) /\
  getCreationTxFee cls env out.2 = out /\
  (forall fee,
     (setCreationTxFee fee;;; getCreationTxFee cls env)%api st
     = (Ok fee, set_creationTxFee (Some fee) st)) /\
  (Defaults_network env !! getNetworkID env = None ->
   getDefaultCreationTxFee cls env = 0%Z) /\
  (forall net,
     Defaults_network env !! getNetworkID env = Some net ->
     getDefaultCreationTxFee cls env
     = cd_creationTxFee match cls with EVMAPI => nd_C net | ContractVMAPI => nd_P net end) /\
  txFee out.2 = txFee st.
Proof.
  cbv zeta. unfold getCreationTxFee, setCreationTxFee, bind, gets, modify, ret.
  destruct (creationTxFee st) as [cached |] eqn:Hfee; cbn.
  - rewrite Hfee. split; [| split; [reflexivity | split; [reflexivity | split; [| split]]]].
    + exists cached. split; [now rewrite <- Hfee, set_creationTxFee_same |].
      split; [now intros c [= <-] | discriminate].
    + unfold getDefaultCreationTxFee. now intros ->.
    + unfold getDefaultCreationTxFee. now intros net ->.
    + reflexivity.
  - split; [| split; [reflexivity | split; [reflexivity | split; [| split]]]].
    + eexists. split; [reflexivity |]. split; [discriminate | reflexivity].
    + unfold getDefaultCreationTxFee. now intros ->.
    + unfold getDefaultCreationTxFee. now intros net ->.
    + reflexivity.
Qed.

(** [setAVAXAssetID] then [getAVAXAssetID()].  A [Buffer] is cached as it is
    and a string is cached decoded; the next [getAVAXAssetID()] returns the
    cached asset in both classes and sends no request.  A string that does
    not decode ends [setAVAXAssetID] in the decoder's exception and leaves
    the cache as it was. *)
Theorem setAVAXAssetID_then_get cls env (st : ApiState) :
  (forall b : Buffer,
     (setAVAXAssetID env (inr b);;; getAVAXAssetID cls env false)%api st
     = (Ok (Some b), set_AVAXAssetID (Some b) st)) /\
  (forall s b,
     cb58Decode env s = Ok b ->
     (setAVAXAssetID env (inl s);;; getAVAXAssetID cls env false)%api st
     = (Ok (Some b), set_AVAXAssetID (Some b) st)) /\
  (forall s msg,
     cb58Decode env s = Throw msg ->
     setAVAXAssetID env (inl s) st = (Throw msg, st)).
Proof.
  split; [| split].
  - intros b. unfold setAVAXAssetID, getAVAXAssetID, bind, gets, modify, ret.
    destruct cls; reflexivity.
  - intros s b Hdec.
    unfold setAVAXAssetID, getAVAXAssetID, bind, gets, modify, ret, liftR.
    rewrite Hdec. destruct cls; reflexivity.
  - intros s msg Hdec. unfold setAVAXAssetID, bind, liftR. now rewrite Hdec.
Qed.

(** At the decoder of [Demo]. *)
Lemma setAVAXAssetID_then_get_witness :
  (setAVAXAssetID (Demo.env [] (Demo.tx 0 0)) (inl "AVAX");;;
   getAVAXAssetID ContractVMAPI (Demo.env [] (Demo.tx 0 0)) false)%api
    (Demo.fresh "chain-P-id")
  = (Ok (Some Demo.avax), Demo.ready "chain-P-id").
Proof.
  exact (proj1 (proj2 (setAVAXAssetID_then_get ContractVMAPI (Demo.env [] (Demo.tx 0 0))
                         (Demo.fresh "chain-P-id")))
               "AVAX" Demo.avax eq_refl).
Defined.

(** ** Address arrays *)

(** [_cleanAddressArray], with [alias] the alias of the chain as
    [getBlockchainAlias] resolves it.  The call leaves the object as that
    resolution leaves it, and its outcome is that of checking the entries in
    order ([checkedEntry]), up to the first exception.  So an array it
    returns has the length and the order of the one it was given, with the
    strings as they came and each [Buffer] as the encoder rendered it; the
    first string for which the parser returns [undefined], when the entries
    before it pass, ends the call with the message "Invalid address format"
    that names the caller and the string; and every exception comes from the
    first entry that does not pass: that message, or the exception of the
    parser or of the encoder.  An absent array and an empty one give the
    empty array. *)
Theorem cleanAddressArray_spec cls env addresses caller (st st1 : ApiState) alias :
  getBlockchainAlias env st = (Ok alias, st1) ->
  let entries := default [] addresses in
  let checked := checkedEntry cls env caller (blockchainID st) alias in
  let out := _cleanAddressArray cls env addresses caller st in
  out = (mapR checked entries, st1) /\
  (forall cleaned,
     out.1 = Ok cleaned ->
     Forall2 (fun e s =>
                match e with
                | AddrString a =>
                    s = a /\
                    exists parsed,
                      bintools_parseAddress env a (blockchainID st) alias
                                            EVMConstants.ADDRESSLENGTH
                      = Ok (Some parsed)
                | AddrBuffer b =>
                    addressToString env (getHRP env)
                      (if truthy alias then alias else Some (blockchainID st)) b
                    = Ok s
                end) entries cleaned) /\
  (forall before a after,
     entries = before ++ AddrString a :: after ->
     (forall e, In e before -> exists s, checked e = Ok s) ->
     bintools_parseAddress env a (blockchainID st) alias EVMConstants.ADDRESSLENGTH
     = Ok None ->
     out.1 = Throw ("Error - " +:+ className cls +:+ "." +:+ caller
                    +:+ ": Invalid address format " +:+ a)) /\
  (forall msg,
     out.1 = Throw msg ->
     exists before e after,
       entries = before ++ e :: after /\
       (forall e', In e' before -> exists s, checked e' = Ok s) /\
       match e with
       | AddrString a =>
           (bintools_parseAddress env a (blockchainID st) alias
                                  EVMConstants.ADDRESSLENGTH = Ok None /\
            msg = "Error - " +:+ className cls +:+ "." +:+ caller
                  +:+ ": Invalid address format " +:+ a) \/
           bintools_parseAddress env a (blockchainID st) alias
                                 EVMConstants.ADDRESSLENGTH = Throw msg
       | AddrBuffer b =>
           addressToString env (getHRP env)
             (if truthy alias then alias else Some (blockchainID st)) b
           = Throw msg
       end) /\
  (entries = [] -> out.1 = Ok []).
Proof.
  intros Hrun. cbv zeta.
  rewrite (cleanAddressArray_run cls env addresses caller st st1 alias Hrun).
  cbn [fst]. split; [reflexivity |]. split; [| split; [| split]].
  - intros cleaned Hok. apply mapR_Ok_inv in Hok.
    eapply Forall2_impl; [exact Hok |].
    intros [a | b] s0; unfold checkedEntry; [| now intros].
    destruct (bintools_parseAddress env a (blockchainID st) alias
                                    EVMConstants.ADDRESSLENGTH) as [[parsed |] | msg];
      [| discriminate | discriminate].
    intros [= <-]. eauto.
  - intros before a after -> Hbefore Hnone.
    apply mapR_first_Throw; [exact Hbefore |].
    unfold checkedEntry. now rewrite Hnone.
  - intros msg Hmsg.
    apply mapR_Throw_inv in Hmsg as (before & e & after & Heq & Hbefore & He).
    exists before, e, after. split; [exact Heq |]. split; [exact Hbefore |].
    unfold checkedEntry in He. destruct e as [a | b]; [| exact He].
    destruct (bintools_parseAddress env a (blockchainID st) alias
                                    EVMConstants.ADDRESSLENGTH) as [[parsed |] | msg'].
    + discriminate.
    + left. split; [reflexivity | now injection He as <-].
    + right. congruence.
  - now intros ->.
Qed.

(** On the C-Chain of [Demo]: an array of a string and a [Buffer] that pass;
    a string of another chain; a string the decoder throws at; and a
    [Buffer] the encoder throws at. *)
Lemma cleanAddressArray_spec_witness :
  let clean addresses :=
    (_cleanAddressArray EVMAPI (Demo.env [] (Demo.tx 0 0)) (Some addresses)
                        "buildExportTx" (Demo.fresh "chain-C-id")).1 in
  clean [AddrString "C-avax1recipient"; AddrBuffer []]
  = Ok ["C-avax1recipient"; "C-avax1address"] /\
  clean [AddrString "C-avax1recipient"; AddrString "Q-bad"; AddrString "C-zzz"]
  = Throw "Error - EVMAPI.buildExportTx: Invalid address format Q-bad" /\
  clean [AddrString "C-zzz"; AddrString "Q-bad"] = Throw "zzz too short" /\
  clean [AddrBuffer (repeat Byte.x00 50)] = Throw "Exceeds length limit".
Proof.
  cbv zeta. split; [| split; [| split]].
  - now rewrite (proj1 (cleanAddressArray_spec EVMAPI (Demo.env [] (Demo.tx 0 0))
                          (Some [AddrString "C-avax1recipient"; AddrBuffer []])
                          "buildExportTx" (Demo.fresh "chain-C-id") _ (Some "C")
                          eq_refl)).
  - apply (proj1 (proj2 (proj2
             (cleanAddressArray_spec EVMAPI (Demo.env [] (Demo.tx 0 0))
                (Some [AddrString "C-avax1recipient"; AddrString "Q-bad";
                       AddrString "C-zzz"])
                "buildExportTx" (Demo.fresh "chain-C-id") _ (Some "C") eq_refl)))
             [AddrString "C-avax1recipient"] "Q-bad" [AddrString "C-zzz"] eq_refl);
      [| reflexivity].
    intros e [<- | []]. now eexists.
  - now rewrite (proj1 (cleanAddressArray_spec EVMAPI (Demo.env [] (Demo.tx 0 0))
                          (Some [AddrString "C-zzz"; AddrString "Q-bad"])
                          "buildExportTx" (Demo.fresh "chain-C-id") _ (Some "C")
                          eq_refl)).
  - now rewrite (proj1 (cleanAddressArray_spec EVMAPI (Demo.env [] (Demo.tx 0 0))
                          (Some [AddrBuffer (repeat Byte.x00 50)])
                          "buildExportTx" (Demo.fresh "chain-C-id") _ (Some "C")
                          eq_refl)).
Defined.

(** [addressFromBuffer] adds no failure of its own: it returns what the
    encoder returns, or throws what the encoder throws, for the [Buffer] and
    the alias of the chain, or [blockchainID] when the alias is absent or
    empty; and [_cleanAddressArray] does the same with a [Buffer] of an
    address array.  Both leave the object as the resolution of the alias
    leaves it. *)
Theorem addressFromBuffer_as_cleaned cls env (address : Buffer) caller (st : ApiState) :
  exists alias st1,
    getBlockchainAlias env st = (Ok alias, st1) /\
    let rendered :=
      addressToString env (getHRP env)
                      (if truthy alias then alias else Some (blockchainID st)) address in
    addressFromBuffer env address st = (rendered, st1) /\
    _cleanAddressArray cls env (Some [AddrBuffer address]) caller st
    = (match rendered with
       | Ok text => Ok [text]
       | Throw msg => Throw msg
       end, st1) /\
    (forall text,
       (addressFromBuffer env address st).1 = Ok text <->
       (_cleanAddressArray cls env (Some [AddrBuffer address]) caller st).1 = Ok [text]) /\
    (forall msg,
       (addressFromBuffer env address st).1 = Throw msg <->
       (_cleanAddressArray cls env (Some [AddrBuffer address]) caller st).1 = Throw msg).
Proof.
  destruct (getBlockchainAlias_run env st) as (alias & Hrun & _).
  exists alias, (set_blockchainAlias alias st). split; [exact Hrun |]. cbv zeta.
  assert (Hstable : getBlockchainAlias env (set_blockchainAlias alias st)
                    = (Ok alias, set_blockchainAlias alias st)).
  { pose proof (getBlockchainAlias_idem env st) as Hidem.
    now rewrite Hrun in Hidem. }
  assert (Hfrom : addressFromBuffer env address st
                  = (addressToString env (getHRP env)
                       (if truthy alias then alias else Some (blockchainID st)) address,
                     set_blockchainAlias alias st)).
  { unfold addressFromBuffer. rewrite (bind_run_Ok _ _ _ _ _ Hrun).
    destruct (truthy alias).
    - rewrite (bind_run_Ok _ _ _ _ _ Hstable). unfold liftR.
      now destruct (addressToString _ _ _ _).
    - unfold bind, getBlockchainID, gets, ret, liftR. cbn.
      now destruct (addressToString _ _ _ _). }
  rewrite Hfrom, (cleanAddressArray_run cls env _ caller st _ alias Hrun).
  cbn [default from_option id mapR checkedEntry fst].
  destruct (addressToString _ _ _ _) as [text | msg].
  - split; [reflexivity |]. split; [reflexivity |]. split.
    + intros text'. split; intros [= ->]; reflexivity.
    + intros msg. split; discriminate.
  - split; [reflexivity |]. split; [reflexivity |]. split.
    + intros text. split; discriminate.
    + intros msg'. split; intros [= ->]; reflexivity.
Qed.

(** ** Fetching spendable outputs *)

(** [getUTXOs] at its edges.  Without a descriptor the call leaves the object
    as it was but for the request it sent, the store included, and returns
    the fetched outputs as a set.  When the transport fails the call throws
    the transport's exception and, descriptor or not, the store is not
    written.  One address given as a string is the call with the array of
    that one address. *)
Theorem getUTXOs_plain cls env addresses sourceChain limit startIndex (st : ApiState) :
  let call := getUTXOsCall cls addresses sourceChain limit startIndex in
  let out := getUTXOs cls env addresses sourceChain limit startIndex None st in
  out.2 = record (Sent call) st /\
  (forall reply,
     node_getUTXOs env (trace st) call = Ok reply ->
     out.1 = Ok (mkUTXOsResult (r_numFetched reply)
                               (addArray (r_utxos reply) false UTXOSet_new)
                               (r_endIndex reply))) /\
  (forall msg persistOpts,
     node_getUTXOs env (trace st) call = Throw msg ->
     getUTXOs cls env addresses sourceChain limit startIndex persistOpts st
     = (Throw msg, record (Sent call) st)) /\
  (forall a persistOpts,
     getUTXOs cls env (OneAddress a) sourceChain limit startIndex persistOpts st
     = getUTXOs cls env (ManyAddresses [a]) sourceChain limit startIndex persistOpts st).
Proof.
  cbv zeta. unfold getUTXOs, getUTXOsCall, callMethod, bind, gets, modify, liftR, ret.
  cbn. split; [| split; [| split]].
  - now destruct (node_getUTXOs env (trace st) _).
  - now intros reply ->.
  - now intros msg persistOpts ->.
  - reflexivity.
Qed.

(** The node of [Demo] serves one output. *)
Lemma getUTXOs_plain_witness :
  (getUTXOs EVMAPI (Demo.env [Demo.servedOutput] (Demo.tx 0 0)) (OneAddress "C-owner")
            None 0 None None (Demo.withSnapshot [Demo.storedOutput])).1
  = Ok (mkUTXOsResult 1 [Demo.servedOutput] Demo.noIndex).
Proof.
  exact (proj1 (proj2 (getUTXOs_plain EVMAPI (Demo.env [Demo.servedOutput] (Demo.tx 0 0))
                         (OneAddress "C-owner") None 0 None
                         (Demo.withSnapshot [Demo.storedOutput])))
               (mkUTXOsReply 1 [Demo.servedOutput] Demo.noIndex) eq_refl).
Defined.

(** A value under the cache name that is not an array is not merged with:
    the fetch is returned as it came, and it replaces the value when the
    caller allows overwriting, else the store stays as it is. *)
Theorem getUTXOs_stored_other cls env addresses sourceChain limit startIndex opts
    (st : ApiState) reply json :
  node_getUTXOs env (trace st) (getUTXOsCall cls addresses sourceChain limit startIndex)
  = Ok reply ->
  db st !! getName opts = Some (StoredOther json) ->
  let out := getUTXOs cls env addresses sourceChain limit startIndex (Some opts) st in
  out.1 = Ok (mkUTXOsResult (r_numFetched reply)
                            (addArray (r_utxos reply) false UTXOSet_new)
                            (r_endIndex reply)) /\
  db out.2 = (if getOverwrite opts
              then <[getName opts := StoredArray (r_utxos reply)]> (db st)
              else db st).
Proof.
  intros Hnode Hdb. cbv zeta.
  rewrite (getUTXOs_persist_run cls env _ _ _ _ opts st reply Hnode). cbn zeta.
  rewrite Hdb. cbn [fst snd set_db db]. split; [reflexivity |].
  unfold db_set, db_has.
  rewrite (bool_decide_eq_true_2 (is_Some (db st !! getName opts)))
    by (rewrite Hdb; eauto).
  now destruct (getOverwrite opts).
Qed.

(** A store that holds a string under ["cache"], and a caller that does not
    allow overwriting. *)
Lemma getUTXOs_stored_other_witness :
  let st := mkApiState "chain-C-id" None None None None
                       (<["cache" := StoredOther "null"]> ∅) [] in
  let out :=
    getUTXOs EVMAPI (Demo.env [Demo.servedOutput] (Demo.tx 0 0)) (OneAddress "C-owner")
             None 0 None
             (Some (mkPersistanceOptions "cache" false KeepIncomingOnConflict)) st in
  out.1 = Ok (mkUTXOsResult 1 [Demo.servedOutput] Demo.noIndex) /\
  db out.2 = db st.
Proof.
  exact (getUTXOs_stored_other EVMAPI (Demo.env [Demo.servedOutput] (Demo.tx 0 0))
           (OneAddress "C-owner") None 0 None
           (mkPersistanceOptions "cache" false KeepIncomingOnConflict)
           (mkApiState "chain-C-id" None None None None
                       (<["cache" := StoredOther "null"]> ∅) [])
           (mkUTXOsReply 1 [Demo.servedOutput] Demo.noIndex) "null" eq_refl eq_refl).
Defined.

Lemma includes_keysOf (set : UTXOSet) (id : string) :
  includes set id = true <-> In id (keysOf set).
Proof.
  unfold includes, keysOf. rewrite existsb_exists, in_map_iff. split.
  - intros (u & Hin & Hu). apply bool_decide_eq_true in Hu. eauto.
  - intros (u & Hu & Hin). exists u. split; [exact Hin |].
    now apply bool_decide_eq_true.
Qed.

Lemma UTXOSet_add_keys (u : UTXO) (overwrite : bool) (set : UTXOSet) :
  List.NoDup (keysOf set) -> List.NoDup (keysOf (UTXOSet_add u overwrite set)).
Proof.
  intros Hnd. unfold UTXOSet_add.
  destruct (includes set (utxoid u)) eqn:Hin.
  - destruct overwrite; [| exact Hnd].
    replace (keysOf (map (fun v => if decide (utxoid v = utxoid u) then u else v) set))
      with (keysOf set); [exact Hnd |].
    unfold keysOf. rewrite map_map. apply map_ext. intros v.
    now destruct (decide (utxoid v = utxoid u)).
  - unfold keysOf. rewrite map_app. cbn [map].
    apply NoDup_ListNoDup. apply NoDup_app. split; [now apply NoDup_ListNoDup |].
    split; [| apply NoDup_singleton].
    intros id Hid Hid'. apply list_elem_of_singleton in Hid'. subst id.
    apply list_elem_of_In in Hid. apply includes_keysOf in Hid. congruence.
Qed.

Lemma addArray_keys (data : list UTXO) (overwrite : bool) (set : UTXOSet) :
  List.NoDup (keysOf set) -> List.NoDup (keysOf (addArray data overwrite set)).
Proof.
  unfold addArray. revert set.
  induction data as [| u data IH]; intros set Hnd; cbn [fold_left]; [exact Hnd |].
  apply IH. now apply UTXOSet_add_keys.
Qed.

(** The set [getUTXOs] returns has no two entries with the same key, whatever
    the node serves (the same output twice, say), whatever the store holds
    and whatever the merge leaves in its receiver. *)
Theorem getUTXOs_unique_keys cls env addresses sourceChain limit startIndex persistOpts
    (st : ApiState) res :
  (getUTXOs cls env addresses sourceChain limit startIndex persistOpts st).1 = Ok res ->
  List.NoDup (keysOf (utxos res)).
Proof.
  unfold getUTXOs, callMethod, bind, gets, modify, liftR, ret. cbn.
  destruct (node_getUTXOs env (trace st) _) as [reply | msg]; [| discriminate].
  destruct persistOpts as [opts |]; cbn.
  - destruct (db_has (db st) (getName opts));
      [destruct (db st !! getName opts) as [[old | other] |] |];
      cbn; intros [= <-]; cbn [utxos];
      repeat apply addArray_keys; constructor.
  - intros [= <-]. cbn [utxos]. apply addArray_keys. constructor.
Qed.

(** The node serves the same output twice, in two serializations. *)
Lemma getUTXOs_unique_keys_witness :
  List.NoDup (keysOf [Demo.servedOutput]).
Proof.
  exact (getUTXOs_unique_keys EVMAPI
           (Demo.env [Demo.servedOutput; Demo.storedOutput] (Demo.tx 0 0))
           (OneAddress "C-owner") None 0 None None (Demo.fresh "chain-C-id")
           (mkUTXOsResult 2 [Demo.servedOutput] Demo.noIndex) eq_refl).
Defined.

(** ** The explicit output total of the guard *)

(** [checkGooseEgg] and its second argument.  A total that is zero or
    negative counts as no total: the transaction's own output total is used.
    Among positive totals a larger one never turns an acceptance into a
    rejection.  A transaction that burns nothing or less than nothing (it
    creates more of the asset than it consumes) always passes. *)
Theorem checkGooseEgg_outTotal cls env utx (st st1 : ApiState) assetID :
  getAVAXAssetID cls env false st = (Ok (Some assetID), st1) ->
  (forall outTotal : BN,
     (outTotal <= 0)%Z ->
     checkGooseEgg cls env utx outTotal st = checkGooseEgg cls env utx 0 st) /\
  (forall low high : BN,
     (0 < low <= high)%Z ->
     (checkGooseEgg cls env utx low st).1 = Ok true ->
     (checkGooseEgg cls env utx high st).1 = Ok true) /\
  (forall outTotal : BN,
     (getBurn utx assetID <= 0)%Z ->
     (checkGooseEgg cls env utx outTotal st).1 = Ok true).
Proof.
  intros Hasset. split; [| split].
  - intros outTotal Hle.
    rewrite !(checkGooseEgg_run _ _ utx _ _ _ _ Hasset). cbn zeta.
    assert (Hgt : (outTotal >? 0)%Z = false) by (rewrite Z.gtb_ltb; apply Z.ltb_ge; lia).
    now rewrite Hgt.
  - intros low high [Hlow Hle].
    rewrite !(checkGooseEgg_run _ _ utx _ _ _ _ Hasset). cbn zeta. cbn [fst].
    assert (Hl : (low >? 0)%Z = true) by (rewrite Z.gtb_ltb; apply Z.ltb_lt; lia).
    assert (Hh : (high >? 0)%Z = true) by (rewrite Z.gtb_ltb; apply Z.ltb_lt; lia).
    rewrite Hl, Hh.
    intros [= Hv]. f_equal.
    apply orb_true_iff in Hv. apply orb_true_iff.
    destruct Hv as [Hv | Hv]; [now left | right].
    apply Z.leb_le in Hv. apply Z.leb_le. lia.
  - intros outTotal Hburn.
    rewrite (checkGooseEgg_run _ _ utx _ _ _ _ Hasset). cbn zeta. cbn [fst].
    f_equal. apply orb_true_iff. left. apply Z.leb_le. unfold ONEAVAX. lia.
Qed.

(** A transaction that burns 2*10^10 and creates 3*10^10 passes with a total
    of 10^9 raised to 2*10^10; it passes by default as well, yet not with the
    total 10^9, which is below what it creates. *)
Lemma checkGooseEgg_outTotal_witness :
  let check outTotal :=
    (checkGooseEgg EVMAPI (Demo.env [] (Demo.tx 0 0))
                   (Demo.tx (5 * 10 ^ 10) (3 * 10 ^ 10)) outTotal
                   (Demo.ready "chain-C-id")).1 in
  check (2 * 10 ^ 10)%Z = Ok true /\
  check (3 * 10 ^ 10)%Z = Ok true /\
  check 0%Z = Ok true /\
  check (10 ^ 9)%Z = Ok false.
Proof.
  cbv zeta. split; [reflexivity |]. split; [| split; reflexivity].
  apply (proj1 (proj2 (checkGooseEgg_outTotal EVMAPI (Demo.env [] (Demo.tx 0 0))
                         (Demo.tx (5 * 10 ^ 10) (3 * 10 ^ 10))
                         (Demo.ready "chain-C-id") (Demo.ready "chain-C-id")
                         Demo.avax eq_refl))
               (2 * 10 ^ 10)%Z (3 * 10 ^ 10)%Z).
  - split; [reflexivity | discriminate].
  - reflexivity.
Defined.

(** ** Key chains *)

(** [newKeyChain] never throws and scopes the new key chain as addresses are
    rendered: with the alias of the chain, or with [blockchainID] when the
    alias is absent or empty.  The constructor scopes its key chain the same
    way, except when the defaults know the chain under an absent or empty
    alias: the constructor then keeps that alias, and a later [newKeyChain]
    falls back to [blockchainID]. *)
Theorem newKeyChain_scope env (st : ApiState) (id : string)
    (store : gmap string StoreValue) :
  (exists alias st1,
     getBlockchainAlias env st = (Ok alias, st1) /\
     newKeyChain env st
     = (Ok (mkKeyChain (getHRP env)
                       (if truthy alias then alias else Some (blockchainID st))),
        st1)) /\
  (exists made,
     (newKeyChain env (construct env id store).1).1 = Ok made /\
     kc_hrp made = kc_hrp (construct env id store).2 /\
     (kc_chainid made = kc_chainid (construct env id store).2 \/
      (truthy (kc_chainid (construct env id store).2) = false /\
       kc_chainid made = Some id))).
Proof.
  assert (Hnew : forall s, exists alias st1,
             getBlockchainAlias env s = (Ok alias, st1) /\
             newKeyChain env s
             = (Ok (mkKeyChain (getHRP env)
                               (if truthy alias then alias else Some (blockchainID s))),
                st1)).
  { intros s. destruct (getBlockchainAlias_run env s) as (alias & Hrun & _).
    exists alias, (set_blockchainAlias alias s). split; [exact Hrun |].
    unfold newKeyChain. rewrite (bind_run_Ok _ _ _ _ _ Hrun).
    now destruct (truthy alias). }
  split; [apply Hnew |].
  unfold construct, newKeyChain, getBlockchainAlias, bind, gets, modify, ret. cbn.
  destruct (Defaults_network env !! getNetworkID env) as [net |]; cbn.
  - destruct (nd_members net !! id) as [chain |] eqn:Hchain; cbn.
    + rewrite Hchain. cbn. destruct (truthy (cd_alias chain)) eqn:Halias; cbn.
      * eexists. split; [reflexivity |]. split; [reflexivity | now left].
      * eexists. split; [reflexivity |]. split; [reflexivity | right; now split].
    + rewrite Hchain. cbn. eexists. split; [reflexivity |].
      split; [reflexivity | now left].
  - eexists. split; [reflexivity |]. split; [reflexivity | now left].
Qed.

(** ** Remote methods that validate before they send *)

(** [ContractVMAPI.getBalance] gives the address to the parser first.  When
    the parser returns [undefined], the call throws "Invalid address format"
    with the address; when the parser throws, the call throws that
    exception; in both cases no request is sent.  When the parser returns a
    [Buffer], exactly one request is sent, [platform.getBalance] with the
    address as it was given, and the call returns what the node answers, or
    throws what the transport throws.  Apart from the request the object is
    left as the resolution of the alias leaves it. *)
Theorem getBalance_validates env (address : string) (st : ApiState) :
  exists alias st1,
    getBlockchainAlias env st = (Ok alias, st1) /\
    trace st1 = trace st /\
    let parsed :=
      bintools_parseAddress env address (blockchainID st) alias
                            EVMConstants.ADDRESSLENGTH in
    let call := mkRpcCall "platform.getBalance" (GetBalanceParams address) in
    (parsed = Ok None ->
     getBalance env address st
     = (Throw ("Error - ContractVMAPI.getBalance: Invalid address format " +:+ address),
        st1)) /\
    (forall msg,
       parsed = Throw msg -> getBalance env address st = (Throw msg, st1)) /\
    (forall b,
       parsed = Ok (Some b) ->
       getBalance env address st
       = (node_getBalance env (trace st) call, record (Sent call) st1)) /\
    (In (Sent call) (trace (getBalance env address st).2) ->
     In (Sent call) (trace st) \/ exists b, parsed = Ok (Some b)).
Proof.
  destruct (getBlockchainAlias_run env st) as (alias & Hrun & _).
  exists alias, (set_blockchainAlias alias st). split; [exact Hrun |].
  split; [reflexivity |]. cbv zeta.
  assert (Hparse : parseAddress env address st
                   = (bintools_parseAddress env address (blockchainID st) alias
                                            EVMConstants.ADDRESSLENGTH,
                      set_blockchainAlias alias st)).
  { unfold parseAddress. rewrite (bind_run_Ok _ _ _ _ _ Hrun).
    unfold bind, getBlockchainID, gets, liftR. cbn.
    now destruct (bintools_parseAddress _ _ _ _ _). }
  unfold getBalance, bind. rewrite Hparse.
  destruct (bintools_parseAddress env address (blockchainID st) alias
                                  EVMConstants.ADDRESSLENGTH) as [[b |] | msg].
  - unfold getBalanceCall, callMethod, bind, gets, modify, liftR. cbn.
    split; [discriminate |]. split; [discriminate |]. split.
    + intros b' _. now destruct (node_getBalance env (trace st) _).
    + intros _. right. eauto.
  - unfold throw. cbn. split; [reflexivity |]. split; [discriminate |].
    split; [discriminate | now left].
  - cbn. split; [discriminate |]. split; [now intros msg' [= ->] |].
    split; [discriminate | now left].
Qed.

(** On the P-Chain of [Demo]: an address of another chain and an address the
    decoder throws at send nothing; an address that parses sends one
    request. *)
Example getBalance_runs :
  let run address :=
    getBalance (Demo.env [] (Demo.tx 0 0)) address (Demo.fresh "chain-P-id") in
  (run "Q-bad").1
  = Throw "Error - ContractVMAPI.getBalance: Invalid address format Q-bad" /\
  trace (run "Q-bad").2 = [] /\
  (run "P-zzz").1 = Throw "zzz too short" /\
  trace (run "P-zzz").2 = [] /\
  (run "P-avax1recipient").1 = Ok "{balance: 0}" /\
  trace (run "P-avax1recipient").2
  = [Sent (mkRpcCall "platform.getBalance" (GetBalanceParams "P-avax1recipient"))].
Proof. cbv zeta. repeat split; vm_compute; reflexivity. Qed.
